(** * Grandmaster Chess Mobile: the session controller of [App.tsx]

    A shallow embedding of the React component [App] (src/App.tsx), of the
    commentary operation [getCoachTip] (services/geminiService) and of the
    player-name fallback, with the properties of the controller proved
    about it.

    Conventions of the embedding.
    - A JavaScript string is the list of its UTF-16 code units ([jsstring]).
    - The rules engine (chess.js, an external package) is the interface
      [RulesEngine]; [ToyChess] below is one instance of it.
    - An event handler is a closure of one render: it reads React state from
      the snapshot of that render, reads and writes the engine through the
      ref [gameRef.current], and queues state updates that the next render
      shows.  [Handler] is the small monad that threads exactly this. *)

From Stdlib Require Import String Ascii List ZArith NArith QArith Bool Lia.
From Stdlib Require Import DecimalString DecimalZ.
From Stdlib Require Floats.PrimFloat.
Import ListNotations.

Local Open Scope Z_scope.

(* ================================================================= *)
(** ** JavaScript strings *)

Module JS.

(** A string is its sequence of UTF-16 code units. *)
Definition jsstring : Type := list N.

(** A literal of the source text; every literal of the program is ASCII. *)
Definition lit (s : string) : jsstring :=
  map N_of_ascii (list_ascii_of_string s).
Arguments lit s : simpl never.

Definition eqb (a b : jsstring) : bool :=
  if list_eq_dec N.eq_dec a b then true else false.

(** [WhiteSpace] and [LineTerminator] of ECMAScript, the code units that
    [String.prototype.trim] strips: TAB, LF, VT, FF, CR, SP, NBSP, the
    Unicode space separators, LS, PS and the byte order mark. *)
Definition isWhiteSpace (c : N) : bool :=
  existsb (N.eqb c)
    [0x09; 0x0A; 0x0B; 0x0C; 0x0D; 0x20; 0xA0; 0x1680;
     0x2000; 0x2001; 0x2002; 0x2003; 0x2004; 0x2005; 0x2006; 0x2007;
     0x2008; 0x2009; 0x200A; 0x2028; 0x2029; 0x202F; 0x205F; 0x3000;
     0xFEFF]%N.

Fixpoint trimStart (s : jsstring) : jsstring :=
  match s with
  | [] => []
  | c :: r => if isWhiteSpace c then trimStart r else s
  end.

Definition trimEnd (s : jsstring) : jsstring := rev (trimStart (rev s)).

(** [s.trim()] *)
Definition trim (s : jsstring) : jsstring := trimEnd (trimStart s).

(** Truthiness of a string: only the empty string is falsy. *)
Definition truthy (s : jsstring) : bool :=
  match s with [] => false | _ :: _ => true end.

(** [a || b] on strings. *)
Definition orElse (a b : jsstring) : jsstring := if truthy a then a else b.

(** [s[i]]: the code unit at index [i], [None] for [undefined]. *)
Definition charAt (s : jsstring) (i : nat) : option N := nth_error s i.

(** [parseInt] of a one-code-unit string or of [undefined]: a decimal digit
    gives its value, anything else is NaN ([None]). *)
Definition parseInt (c : option N) : option Z :=
  match c with
  | Some u => if ((48 <=? u) && (u <=? 57))%N then Some (Z.of_N u - 48) else None
  | None => None
  end.

(** [arr.indexOf(x)]: the first index holding a value strictly equal to [x],
    -1 when there is none. *)
Fixpoint indexOfFrom {A : Type} (eqb : A -> A -> bool) (x : A) (l : list A) (i : Z) : Z :=
  match l with
  | [] => -1
  | y :: r => if eqb y x then i else indexOfFrom eqb x r (i + 1)
  end.

Definition indexOf {A : Type} (eqb : A -> A -> bool) (x : A) (l : list A) : Z :=
  indexOfFrom eqb x l 0.

End JS.

Import JS.

(* ================================================================= *)
(** ** Display names (App.tsx, lines 80-82) *)

(** [whiteName.trim() || 'White'] *)
Definition displayNameOf (stored : jsstring) (fallback : string) : jsstring :=
  orElse (trim stored) (lit fallback).

(* ================================================================= *)
(** ** The commentary operation (services/geminiService, [getCoachTip]) *)

Module Gemini.

(** How an awaited promise settles. *)
Inductive Settled (A : Type) : Type :=
| Fulfilled (a : A)
| Rejected.
Arguments Fulfilled {A} a.
Arguments Rejected {A}.

(** What the function sees of its environment: [process.env.API_KEY]
    ([None] when unset) and the remote call
    [ai.models.generateContent({model, contents})], which either rejects or
    fulfils with a response whose [text] may be [undefined]. *)
Record Env : Type := {
  API_KEY : option jsstring;
  generateContent : jsstring -> jsstring -> jsstring -> Settled (option jsstring)
}.

(** [getClient]: [null] when the key is unset or empty, else a client that
    carries the key. *)
Definition getClient (env : Env) : option jsstring :=
  match API_KEY env with
  | Some apiKey => if truthy apiKey then Some apiKey else None
  | None => None
  end.

Definition coachPrompt (fen lastMove : jsstring) : jsstring :=
  lit "The chess game is in state FEN: " ++ fen ++
  lit ". The last move was " ++ lastMove ++
  lit ". Give a very short, witty, 1-sentence comment about that move as if you are a spectator.".

Definition getCoachTip (env : Env) (fen lastMove : jsstring) : Settled jsstring :=
  match getClient env with
  | None => Fulfilled (lit "Coach unavailable.")
  | Some apiKey =>
      match generateContent env apiKey (lit "gemini-3-flash-preview")
              (coachPrompt fen lastMove) with
      | Fulfilled text =>
          Fulfilled (match text with Some t => orElse t [] | None => [] end)
      | Rejected => Fulfilled []
      end
  end.

(** The type [AnalysisResult] of [types.ts] (its text follows that of
    src/components/SettingsModal.tsx, lines 200-204): an evaluation, the
    best move's notation if there is one, an explanation. *)
Record AnalysisResult : Type := {
  evaluation : jsstring;
  bestMove : option jsstring;
  explanation : jsstring
}.

End Gemini.

(* ================================================================= *)
(** ** The rules engine (chess.js), as the controller consumes it *)

Module Chess.

Inductive Color : Type := White | Black.          (* 'w' | 'b' *)

Inductive File : Type := Fa | Fb | Fc | Fd | Fe | Ff | Fg | Fh.
Inductive Rank : Type := R1 | R2 | R3 | R4 | R5 | R6 | R7 | R8.

(** The type [Square] of chess.js: 'a1' ... 'h8'. *)
Record Square : Type := { file : File; rank : Rank }.

Inductive PieceSymbol : Type := Pawn | Knight | Bishop | Rook | Queen | King.

Record Piece : Type := { type : PieceSymbol; color : Color }.

(** The fields of a verbose move that the controller reads. *)
Record Move : Type := {
  from : Square;
  to : Square;
  flags : jsstring;
  san : jsstring;
  captured : option PieceSymbol
}.

(** The argument of [game.move]. *)
Record MoveAttempt : Type := {
  a_from : Square;
  a_to : Square;
  a_promotion : PieceSymbol
}.

Definition Color_eqb (a b : Color) : bool :=
  match a, b with White, White | Black, Black => true | _, _ => false end.

Definition fileIndex (f : File) : Z :=
  match f with
  | Fa => 0 | Fb => 1 | Fc => 2 | Fd => 3 | Fe => 4 | Ff => 5 | Fg => 6 | Fh => 7
  end.

Definition rankNumber (r : Rank) : Z :=
  match r with
  | R1 => 1 | R2 => 2 | R3 => 3 | R4 => 4 | R5 => 5 | R6 => 6 | R7 => 7 | R8 => 8
  end.

Definition Square_eqb (a b : Square) : bool :=
  (fileIndex (file a) =? fileIndex (file b)) && (rankNumber (rank a) =? rankNumber (rank b)).

(** The string of a square: file letter, rank digit. *)
Definition squareName (sq : Square) : jsstring :=
  [Z.to_N (97 + fileIndex (file sq)); Z.to_N (48 + rankNumber (rank sq))].

(** The engine object.  [move] returns [None] where chess.js throws (an
    illegal move), leaving the game as it was; [undo] and [reset] return the
    mutated game. *)
Class Engine : Type := {
  Game : Type;
  newGame : Game;                               (* new Chess() *)
  fen : Game -> jsstring;
  turn : Game -> Color;
  inCheck : Game -> bool;
  isGameOver : Game -> bool;
  isCheckmate : Game -> bool;
  isDraw : Game -> bool;
  isStalemate : Game -> bool;
  history : Game -> list Move;                  (* history({verbose: true}) *)
  get : Game -> Square -> option Piece;
  moves : Game -> list Move;                    (* moves({verbose: true}) *)
  movesFrom : Game -> Square -> list Move;      (* moves({square, verbose: true}) *)
  move : Game -> MoveAttempt -> option (Game * Move);
  undo : Game -> Game;
  reset : Game -> Game
}.

(** What the controller's properties need to know of a fresh game. *)
Class Laws (E : Engine) : Prop := {
  reset_newGame : forall g, reset g = newGame;
  newGame_turn : turn newGame = White;
  newGame_inCheck : inCheck newGame = false;
  newGame_history : history newGame = [];
  newGame_isGameOver : isGameOver newGame = false
}.

End Chess.

Import Gemini.


(* ================================================================= *)
(** ** The component [App] (src/App.tsx) *)

Module App.

(** [TimeControl = 1 | 3 | 5 | 10 | 30] (components/SettingsModal.tsx) *)
Inductive TimeControl : Type := TC1 | TC3 | TC5 | TC10 | TC30.

Definition minutes (t : TimeControl) : Z :=
  match t with TC1 => 1 | TC3 => 3 | TC5 => 5 | TC10 => 10 | TC30 => 30 end.

(** [{from: string, to: string, flags?: string}] *)
Record LastMove : Type := {
  lm_from : jsstring;
  lm_to : jsstring;
  lm_flags : option jsstring
}.

(** [{from: string, to: string}] *)
Record Suggestion : Type := { sg_from : jsstring; sg_to : jsstring }.

(** The calls a handler issues to the analysis service.  Audio feedback
    ([playSound]) is left out: it reads and writes no state of the
    controller. *)
Inductive Effect : Type :=
| CallAnalyzeBoard (fen : jsstring) (turn : Chess.Color)
| CallGetCoachTip (fen : jsstring) (lastMove : jsstring).

(** The saved settings read at mount ([getSavedSetting], with their
    defaults where nothing is stored). *)
Record Settings : Type := {
  saved_timeControl : TimeControl;
  saved_whiteName : jsstring;
  saved_blackName : jsstring
}.

Section Controller.

Context {E : Chess.Engine}.

(** The engine behind [gameRef] and the React state of the component.  The
    analysis dialog, the settings dialog and the board theme are
    presentation state that no handler below reads; they are left out, and
    so is the sound flag. *)
Record State : Type := {
  game : Chess.Game;   (* gameRef.current *)
  fen : jsstring;
  selectedSquare : option Chess.Square;
  possibleMoves : list jsstring;
  turn : Chess.Color;
  isCheck : bool;
  gameOver : bool;
  gameStatus : jsstring;
  orientation : Chess.Color;
  coachTip : jsstring;
  lastMove : option LastMove;
  historyCount : nat;
  timeControl : TimeControl;
  whiteName : jsstring;
  blackName : jsstring;
  suggestedMove : option Suggestion;
  suggestionLoading : bool;
  whiteTime : Z;   (* seconds *)
  blackTime : Z   (* seconds *)
}.

Definition set_game (v : Chess.Game) (s : State) : State :=
  {| game := v; fen := fen s; selectedSquare := selectedSquare s;
     possibleMoves := possibleMoves s; turn := turn s; isCheck := isCheck s;
     gameOver := gameOver s; gameStatus := gameStatus s;
     orientation := orientation s; coachTip := coachTip s;
     lastMove := lastMove s; historyCount := historyCount s;
     timeControl := timeControl s; whiteName := whiteName s;
     blackName := blackName s; suggestedMove := suggestedMove s;
     suggestionLoading := suggestionLoading s; whiteTime := whiteTime s;
     blackTime := blackTime s |}.

Definition set_fen (v : jsstring) (s : State) : State :=
  {| game := game s; fen := v; selectedSquare := selectedSquare s;
     possibleMoves := possibleMoves s; turn := turn s; isCheck := isCheck s;
     gameOver := gameOver s; gameStatus := gameStatus s;
     orientation := orientation s; coachTip := coachTip s;
     lastMove := lastMove s; historyCount := historyCount s;
     timeControl := timeControl s; whiteName := whiteName s;
     blackName := blackName s; suggestedMove := suggestedMove s;
     suggestionLoading := suggestionLoading s; whiteTime := whiteTime s;
     blackTime := blackTime s |}.

Definition set_selectedSquare (v : option Chess.Square) (s : State) : State :=
  {| game := game s; fen := fen s; selectedSquare := v;
     possibleMoves := possibleMoves s; turn := turn s; isCheck := isCheck s;
     gameOver := gameOver s; gameStatus := gameStatus s;
     orientation := orientation s; coachTip := coachTip s;
     lastMove := lastMove s; historyCount := historyCount s;
     timeControl := timeControl s; whiteName := whiteName s;
     blackName := blackName s; suggestedMove := suggestedMove s;
     suggestionLoading := suggestionLoading s; whiteTime := whiteTime s;
     blackTime := blackTime s |}.

Definition set_possibleMoves (v : list jsstring) (s : State) : State :=
  {| game := game s; fen := fen s; selectedSquare := selectedSquare s;
     possibleMoves := v; turn := turn s; isCheck := isCheck s;
     gameOver := gameOver s; gameStatus := gameStatus s;
     orientation := orientation s; coachTip := coachTip s;
     lastMove := lastMove s; historyCount := historyCount s;
     timeControl := timeControl s; whiteName := whiteName s;
     blackName := blackName s; suggestedMove := suggestedMove s;
     suggestionLoading := suggestionLoading s; whiteTime := whiteTime s;
     blackTime := blackTime s |}.

Definition set_turn (v : Chess.Color) (s : State) : State :=
  {| game := game s; fen := fen s; selectedSquare := selectedSquare s;
     possibleMoves := possibleMoves s; turn := v; isCheck := isCheck s;
     gameOver := gameOver s; gameStatus := gameStatus s;
     orientation := orientation s; coachTip := coachTip s;
     lastMove := lastMove s; historyCount := historyCount s;
     timeControl := timeControl s; whiteName := whiteName s;
     blackName := blackName s; suggestedMove := suggestedMove s;
     suggestionLoading := suggestionLoading s; whiteTime := whiteTime s;
     blackTime := blackTime s |}.

Definition set_isCheck (v : bool) (s : State) : State :=
  {| game := game s; fen := fen s; selectedSquare := selectedSquare s;
     possibleMoves := possibleMoves s; turn := turn s; isCheck := v;
     gameOver := gameOver s; gameStatus := gameStatus s;
     orientation := orientation s; coachTip := coachTip s;
     lastMove := lastMove s; historyCount := historyCount s;
     timeControl := timeControl s; whiteName := whiteName s;
     blackName := blackName s; suggestedMove := suggestedMove s;
     suggestionLoading := suggestionLoading s; whiteTime := whiteTime s;
     blackTime := blackTime s |}.

Definition set_gameOver (v : bool) (s : State) : State :=
  {| game := game s; fen := fen s; selectedSquare := selectedSquare s;
     possibleMoves := possibleMoves s; turn := turn s; isCheck := isCheck s;
     gameOver := v; gameStatus := gameStatus s; orientation := orientation s;
     coachTip := coachTip s; lastMove := lastMove s;
     historyCount := historyCount s; timeControl := timeControl s;
     whiteName := whiteName s; blackName := blackName s;
     suggestedMove := suggestedMove s;
     suggestionLoading := suggestionLoading s; whiteTime := whiteTime s;
     blackTime := blackTime s |}.

Definition set_gameStatus (v : jsstring) (s : State) : State :=
  {| game := game s; fen := fen s; selectedSquare := selectedSquare s;
     possibleMoves := possibleMoves s; turn := turn s; isCheck := isCheck s;
     gameOver := gameOver s; gameStatus := v; orientation := orientation s;
     coachTip := coachTip s; lastMove := lastMove s;
     historyCount := historyCount s; timeControl := timeControl s;
     whiteName := whiteName s; blackName := blackName s;
     suggestedMove := suggestedMove s;
     suggestionLoading := suggestionLoading s; whiteTime := whiteTime s;
     blackTime := blackTime s |}.

Definition set_orientation (v : Chess.Color) (s : State) : State :=
  {| game := game s; fen := fen s; selectedSquare := selectedSquare s;
     possibleMoves := possibleMoves s; turn := turn s; isCheck := isCheck s;
     gameOver := gameOver s; gameStatus := gameStatus s; orientation := v;
     coachTip := coachTip s; lastMove := lastMove s;
     historyCount := historyCount s; timeControl := timeControl s;
     whiteName := whiteName s; blackName := blackName s;
     suggestedMove := suggestedMove s;
     suggestionLoading := suggestionLoading s; whiteTime := whiteTime s;
     blackTime := blackTime s |}.

Definition set_coachTip (v : jsstring) (s : State) : State :=
  {| game := game s; fen := fen s; selectedSquare := selectedSquare s;
     possibleMoves := possibleMoves s; turn := turn s; isCheck := isCheck s;
     gameOver := gameOver s; gameStatus := gameStatus s;
     orientation := orientation s; coachTip := v; lastMove := lastMove s;
     historyCount := historyCount s; timeControl := timeControl s;
     whiteName := whiteName s; blackName := blackName s;
     suggestedMove := suggestedMove s;
     suggestionLoading := suggestionLoading s; whiteTime := whiteTime s;
     blackTime := blackTime s |}.

Definition set_lastMove (v : option LastMove) (s : State) : State :=
  {| game := game s; fen := fen s; selectedSquare := selectedSquare s;
     possibleMoves := possibleMoves s; turn := turn s; isCheck := isCheck s;
     gameOver := gameOver s; gameStatus := gameStatus s;
     orientation := orientation s; coachTip := coachTip s; lastMove := v;
     historyCount := historyCount s; timeControl := timeControl s;
     whiteName := whiteName s; blackName := blackName s;
     suggestedMove := suggestedMove s;
     suggestionLoading := suggestionLoading s; whiteTime := whiteTime s;
     blackTime := blackTime s |}.

Definition set_historyCount (v : nat) (s : State) : State :=
  {| game := game s; fen := fen s; selectedSquare := selectedSquare s;
     possibleMoves := possibleMoves s; turn := turn s; isCheck := isCheck s;
     gameOver := gameOver s; gameStatus := gameStatus s;
     orientation := orientation s; coachTip := coachTip s;
     lastMove := lastMove s; historyCount := v; timeControl := timeControl s;
     whiteName := whiteName s; blackName := blackName s;
     suggestedMove := suggestedMove s;
     suggestionLoading := suggestionLoading s; whiteTime := whiteTime s;
     blackTime := blackTime s |}.

Definition set_timeControl (v : TimeControl) (s : State) : State :=
  {| game := game s; fen := fen s; selectedSquare := selectedSquare s;
     possibleMoves := possibleMoves s; turn := turn s; isCheck := isCheck s;
     gameOver := gameOver s; gameStatus := gameStatus s;
     orientation := orientation s; coachTip := coachTip s;
     lastMove := lastMove s; historyCount := historyCount s;
     timeControl := v; whiteName := whiteName s; blackName := blackName s;
     suggestedMove := suggestedMove s;
     suggestionLoading := suggestionLoading s; whiteTime := whiteTime s;
     blackTime := blackTime s |}.

Definition set_whiteName (v : jsstring) (s : State) : State :=
  {| game := game s; fen := fen s; selectedSquare := selectedSquare s;
     possibleMoves := possibleMoves s; turn := turn s; isCheck := isCheck s;
     gameOver := gameOver s; gameStatus := gameStatus s;
     orientation := orientation s; coachTip := coachTip s;
     lastMove := lastMove s; historyCount := historyCount s;
     timeControl := timeControl s; whiteName := v; blackName := blackName s;
     suggestedMove := suggestedMove s;
     suggestionLoading := suggestionLoading s; whiteTime := whiteTime s;
     blackTime := blackTime s |}.

Definition set_blackName (v : jsstring) (s : State) : State :=
  {| game := game s; fen := fen s; selectedSquare := selectedSquare s;
     possibleMoves := possibleMoves s; turn := turn s; isCheck := isCheck s;
     gameOver := gameOver s; gameStatus := gameStatus s;
     orientation := orientation s; coachTip := coachTip s;
     lastMove := lastMove s; historyCount := historyCount s;
     timeControl := timeControl s; whiteName := whiteName s; blackName := v;
     suggestedMove := suggestedMove s;
     suggestionLoading := suggestionLoading s; whiteTime := whiteTime s;
     blackTime := blackTime s |}.

Definition set_suggestedMove (v : option Suggestion) (s : State) : State :=
  {| game := game s; fen := fen s; selectedSquare := selectedSquare s;
     possibleMoves := possibleMoves s; turn := turn s; isCheck := isCheck s;
     gameOver := gameOver s; gameStatus := gameStatus s;
     orientation := orientation s; coachTip := coachTip s;
     lastMove := lastMove s; historyCount := historyCount s;
     timeControl := timeControl s; whiteName := whiteName s;
     blackName := blackName s; suggestedMove := v;
     suggestionLoading := suggestionLoading s; whiteTime := whiteTime s;
     blackTime := blackTime s |}.

Definition set_suggestionLoading (v : bool) (s : State) : State :=
  {| game := game s; fen := fen s; selectedSquare := selectedSquare s;
     possibleMoves := possibleMoves s; turn := turn s; isCheck := isCheck s;
     gameOver := gameOver s; gameStatus := gameStatus s;
     orientation := orientation s; coachTip := coachTip s;
     lastMove := lastMove s; historyCount := historyCount s;
     timeControl := timeControl s; whiteName := whiteName s;
     blackName := blackName s; suggestedMove := suggestedMove s;
     suggestionLoading := v; whiteTime := whiteTime s;
     blackTime := blackTime s |}.

Definition set_whiteTime (v : Z) (s : State) : State :=
  {| game := game s; fen := fen s; selectedSquare := selectedSquare s;
     possibleMoves := possibleMoves s; turn := turn s; isCheck := isCheck s;
     gameOver := gameOver s; gameStatus := gameStatus s;
     orientation := orientation s; coachTip := coachTip s;
     lastMove := lastMove s; historyCount := historyCount s;
     timeControl := timeControl s; whiteName := whiteName s;
     blackName := blackName s; suggestedMove := suggestedMove s;
     suggestionLoading := suggestionLoading s; whiteTime := v;
     blackTime := blackTime s |}.

Definition set_blackTime (v : Z) (s : State) : State :=
  {| game := game s; fen := fen s; selectedSquare := selectedSquare s;
     possibleMoves := possibleMoves s; turn := turn s; isCheck := isCheck s;
     gameOver := gameOver s; gameStatus := gameStatus s;
     orientation := orientation s; coachTip := coachTip s;
     lastMove := lastMove s; historyCount := historyCount s;
     timeControl := timeControl s; whiteName := whiteName s;
     blackName := blackName s; suggestedMove := suggestedMove s;
     suggestionLoading := suggestionLoading s; whiteTime := whiteTime s;
     blackTime := v |}.

(** *** Handlers

    [Handler A] is a computation run by a closure of one render.  Its first
    argument is the state that render showed, which is what the closure's
    captured state variables hold; its second is the state the next render
    will show, to which [setX] calls are applied in order.  The engine is
    reached through the ref and is read live. *)
Definition Handler (A : Type) : Type :=
  State -> State -> A * State * list Effect.

Definition ret {A : Type} (a : A) : Handler A := fun _ s => (a, s, []).

Definition bind {A B : Type} (m : Handler A) (k : A -> Handler B) : Handler B :=
  fun r s =>
    let '(a, s1, o1) := m r s in
    let '(b, s2, o2) := k a r s1 in
    (b, s2, o1 ++ o2).

(** A state variable as the closure captured it. *)
Definition rendered {A : Type} (f : State -> A) : Handler A :=
  fun r s => (f r, s, []).

(** [gameRef.current] *)
Definition gameRef : Handler Chess.Game := fun _ s => (game s, s, []).

(** A queued state update, or a mutation of the engine behind the ref. *)
Definition update (f : State -> State) : Handler unit :=
  fun _ s => (tt, f s, []).

Definition emit (e : Effect) : Handler unit := fun _ s => (tt, s, [e]).

(** Running the closure of the render that shows [s]. *)
Definition runHandler (h : Handler unit) (s : State) : State * list Effect :=
  let '(_, s', out) := h s s in (s', out).

Declare Scope handler_scope.
Delimit Scope handler_scope with handler.
Notation "x <- m ;; k" := (bind m (fun x => k))
  (at level 61, m at next level, right associativity) : handler_scope.
Notation "m ;; k" := (bind m (fun _ => k))
  (at level 61, right associativity) : handler_scope.
Local Open Scope handler_scope.

Definition setFen v := update (set_fen v).
Definition setSelectedSquare v := update (set_selectedSquare v).
Definition setPossibleMoves v := update (set_possibleMoves v).
Definition setTurn v := update (set_turn v).
Definition setIsCheck v := update (set_isCheck v).
Definition setGameOver v := update (set_gameOver v).
Definition setGameStatus v := update (set_gameStatus v).
Definition setCoachTip v := update (set_coachTip v).
Definition setLastMove v := update (set_lastMove v).
Definition setHistoryCount v := update (set_historyCount v).
Definition setSuggestedMove v := update (set_suggestedMove v).
Definition setSuggestionLoading v := update (set_suggestionLoading v).
Definition setTimeControl v := update (set_timeControl v).
Definition setWhiteName v := update (set_whiteName v).
Definition setBlackName v := update (set_blackName v).

(** [setWhiteTime(prev => f(prev))] and [setWhiteTime(v)] *)
Definition updWhiteTime (f : Z -> Z) := update (fun s => set_whiteTime (f (whiteTime s)) s).
Definition updBlackTime (f : Z -> Z) := update (fun s => set_blackTime (f (blackTime s)) s).
Definition setWhiteTime v := update (set_whiteTime v).
Definition setBlackTime v := update (set_blackTime v).

(** Lines 80-82. *)
Definition displayWhiteName (s : State) : jsstring := displayNameOf (whiteName s) "White".
Definition displayBlackName (s : State) : jsstring := displayNameOf (blackName s) "Black".

Definition lastOf {A : Type} (l : list A) : option A :=
  match rev l with [] => None | a :: _ => Some a end.

(** Lines 146-184.  The callback is memoised on [whiteTime], [blackTime] and
    the two display names, so these are the values of the current render. *)
Definition updateGameState : Handler unit :=
  game <- gameRef ;;
  setFen (Chess.fen game) ;;
  setTurn (Chess.turn game) ;;
  let inCheck := Chess.inCheck game in
  setIsCheck inCheck ;;
  let history := Chess.history game in
  setHistoryCount (List.length history) ;;
  match lastOf history with
  | Some last =>
      setLastMove (Some {| lm_from := Chess.squareName (Chess.from last);
                           lm_to := Chess.squareName (Chess.to last);
                           lm_flags := Some (Chess.flags last) |})
  | None => setLastMove None
  end ;;
  if Chess.isGameOver game then
    setGameOver true ;;
    if Chess.isCheckmate game then
      winner <- rendered (match Chess.turn game with
                          | Chess.White => displayBlackName
                          | Chess.Black => displayWhiteName
                          end) ;;
      setGameStatus (lit "Checkmate! " ++ winner ++ lit " wins.")
    else if Chess.isDraw game then setGameStatus (lit "Draw!")
    else if Chess.isStalemate game then setGameStatus (lit "Stalemate!")
    else setGameStatus (lit "Game Over")
  else
    whiteTime <- rendered whiteTime ;;
    blackTime <- rendered blackTime ;;
    (* Only un-set game over if we are not in a timeout state *)
    if (0 <? whiteTime) && (0 <? blackTime) then
      setGameOver false ;;
      setGameStatus []
    else ret tt.

(** Lines 241-251: select new square. *)
Definition selectNewSquare (square : Chess.Square) : Handler unit :=
  game <- gameRef ;;
  match Chess.get game square with
  | Some piece =>
      if Chess.Color_eqb (Chess.color piece) (Chess.turn game) then
        setSelectedSquare (Some square) ;;
        setPossibleMoves
          (map (fun m => Chess.squareName (Chess.to m)) (Chess.movesFrom game square))
      else
        setSelectedSquare None ;;
        setPossibleMoves []
  | None =>
      setSelectedSquare None ;;
      setPossibleMoves []
  end.

(** [selectedSquare === square] *)
Definition sameSquare (selected : option Chess.Square) (square : Chess.Square) : bool :=
  match selected with
  | Some sq => Chess.Square_eqb sq square
  | None => false
  end.

(** Lines 187-252.  [rnd] is the value [Math.random()] returns if it is
    drawn. *)
Definition onSquareClick (square : Chess.Square) (rnd : Q) : Handler unit :=
  gameOver <- rendered gameOver ;;
  if gameOver then ret tt else
  game <- gameRef ;;
  selectedSquare <- rendered selectedSquare ;;
  (* If touching same square, deselect *)
  if sameSquare selectedSquare square then
    setSelectedSquare None ;;
    setPossibleMoves []
  else
    (* Attempt Move *)
    match selectedSquare with
    | Some selected =>
        let moveAttempt := {| Chess.a_from := selected;
                              Chess.a_to := square;
                              Chess.a_promotion := Chess.Queen |} in
        match Chess.move game moveAttempt with
        | Some (game', moveResult) =>
            update (set_game game') ;;
            setSelectedSquare None ;;
            setPossibleMoves [] ;;
            setSuggestedMove None ;;
            updateGameState ;;
            if negb (Qle_bool rnd (7 # 10)) then
              emit (CallGetCoachTip (Chess.fen game') (Chess.san moveResult))
            else setCoachTip []
        | None => selectNewSquare square
        end
    | None => selectNewSquare square
    end.

(** Lines 254-264. *)
Definition undoMove : Handler unit :=
  game <- gameRef ;;
  if (List.length (Chess.history game) =? 0)%nat then ret tt else
  update (set_game (Chess.undo game)) ;;
  setSelectedSquare None ;;
  setPossibleMoves [] ;;
  setSuggestedMove None ;;
  setCoachTip [] ;;
  updateGameState.

(** Lines 266-276. *)
Definition resetGame : Handler unit :=
  game <- gameRef ;;
  update (set_game (Chess.reset game)) ;;
  timeControl <- rendered timeControl ;;
  setWhiteTime (minutes timeControl * 60) ;;
  setBlackTime (minutes timeControl * 60) ;;
  setCoachTip [] ;;
  setSelectedSquare None ;;
  setPossibleMoves [] ;;
  setSuggestedMove None ;;
  updateGameState.

(** Lines 287-293: [handleSuggestMove] up to its [await]. *)
Definition handleSuggestMove : Handler unit :=
  gameOver <- rendered gameOver ;;
  if gameOver then ret tt else
  setSuggestionLoading true ;;
  setSuggestedMove None ;;
  game <- gameRef ;;
  emit (CallAnalyzeBoard (Chess.fen game) (Chess.turn game)).

(** The move of the live position whose notation is the returned one
    (lines 295-298). *)
Definition bestMoveObj (game : Chess.Game) (result : AnalysisResult) : option Chess.Move :=
  match bestMove result with
  | Some bm =>
      if truthy bm then find (fun m => JS.eqb (Chess.san m) bm) (Chess.moves game)
      else None
  | None => None
  end.

(** Lines 295-304: [handleSuggestMove] resumed with the awaited result.  It
    reads the engine through the ref and no state variable. *)
Definition handleSuggestMove_resumed (result : AnalysisResult) : Handler unit :=
  game <- gameRef ;;
  match bestMoveObj game result with
  | Some m =>
      setSuggestedMove (Some {| sg_from := Chess.squareName (Chess.from m);
                                sg_to := Chess.squareName (Chess.to m) |})
  | None => ret tt
  end ;;
  setSuggestionLoading false.

(** Line 230: [.then(tip => setCoachTip(tip))] *)
Definition coachTip_resumed (tip : jsstring) : Handler unit := setCoachTip tip.

(** Lines 105-123: the callback of the one-second interval.  The interval
    exists only while the render it belongs to has [gameOver] false. *)
Definition timerTick : Handler unit :=
  gameOver <- rendered gameOver ;;
  if gameOver then ret tt else
  turn <- rendered turn ;;
  match turn with
  | Chess.White => updWhiteTime (fun prev => if prev <=? 0 then 0 else prev - 1)
  | Chess.Black => updBlackTime (fun prev => if prev <=? 0 then 0 else prev - 1)
  end.

(** Lines 126-138: check for timeout, run after a render. *)
Definition timeoutEffect : Handler unit :=
  gameOver <- rendered gameOver ;;
  if gameOver then ret tt else
  whiteTime <- rendered whiteTime ;;
  blackTime <- rendered blackTime ;;
  if whiteTime <=? 0 then
    setGameOver true ;;
    name <- rendered displayBlackName ;;
    setGameStatus (name ++ lit " wins on time!")
  else if blackTime <=? 0 then
    setGameOver true ;;
    name <- rendered displayWhiteName ;;
    setGameStatus (name ++ lit " wins on time!")
  else ret tt.

(** *** The buttons (lines 592-626) and the settings dialog *)

(** Takeback: [disabled={historyCount === 0 || gameOver}] *)
Definition takebackButton : Handler unit :=
  historyCount <- rendered historyCount ;;
  gameOver <- rendered gameOver ;;
  if (historyCount =? 0)%nat || gameOver then ret tt else undoMove.

(** Hint: [disabled={gameOver || suggestionLoading}] *)
Definition hintButton : Handler unit :=
  gameOver <- rendered gameOver ;;
  suggestionLoading <- rendered suggestionLoading ;;
  if gameOver || suggestionLoading then ret tt else handleSuggestMove.

(** Line 375: [setOrientation(o => o === 'w' ? 'b' : 'w')] *)
Definition flipBoard : Handler unit :=
  update (fun s => set_orientation
                     (match orientation s with
                      | Chess.White => Chess.Black
                      | Chess.Black => Chess.White
                      end) s).

(** SettingsModal.tsx, lines 77 and 89: [onBlur] of the name inputs. *)
Definition blurWhiteName : Handler unit :=
  whiteName <- rendered whiteName ;;
  if truthy (trim whiteName) then ret tt else setWhiteName (lit "White").

Definition blurBlackName : Handler unit :=
  blackName <- rendered blackName ;;
  if truthy (trim blackName) then ret tt else setBlackName (lit "Black").

(** *** The session as a transition system *)

(** The events of the game session: the board, the buttons under it other
    than Coach, the timer, the completions of the session's calls, and the
    settings the session reads.  The Coach button, the two dialogs and the
    other settings are events of the whole component, [Component.Event]. *)
Inductive Event : Type :=
| SquareClick (square : Chess.Square) (rnd : Q)
| TakebackClick
| ResetClick
| HintClick
| Tick
| SuggestionResolved (result : AnalysisResult)
| CoachTipResolved (tip : jsstring)
| FlipClick
| TimeControlChosen (t : TimeControl)
| WhiteNameTyped (name : jsstring)
| BlackNameTyped (name : jsstring)
| WhiteNameBlurred
| BlackNameBlurred.

Definition handlerOf (e : Event) : Handler unit :=
  match e with
  | SquareClick square rnd => onSquareClick square rnd
  | TakebackClick => takebackButton
  | ResetClick => resetGame
  | HintClick => hintButton
  | Tick => timerTick
  | SuggestionResolved result => handleSuggestMove_resumed result
  | CoachTipResolved tip => coachTip_resumed tip
  | FlipClick => flipBoard
  | TimeControlChosen t => setTimeControl t
  | WhiteNameTyped name => setWhiteName name
  | BlackNameTyped name => setBlackName name
  | WhiteNameBlurred => blurWhiteName
  | BlackNameBlurred => blurBlackName
  end.

(** One event: its handler runs on the current render, the component
    renders again, and the timeout effect of that render runs. *)
Definition dispatch (s : State) (e : Event) : State * list Effect :=
  let '(s1, out1) := runHandler (handlerOf e) s in
  let '(s2, out2) := runHandler timeoutEffect s1 in
  (s2, out1 ++ out2).

Definition step (s : State) (e : Event) : State := fst (dispatch s e).

Definition run (s : State) (es : list Event) : State := fold_left step es s.

(** The state of the first render (lines 25-78). *)
Definition initialState (cfg : Settings) : State :=
  {| game := Chess.newGame;
     fen := Chess.fen Chess.newGame;
     selectedSquare := None;
     possibleMoves := [];
     turn := Chess.White;
     isCheck := false;
     gameOver := false;
     gameStatus := [];
     orientation := Chess.White;
     coachTip := [];
     lastMove := None;
     historyCount := 0%nat;
     timeControl := saved_timeControl cfg;
     whiteName := saved_whiteName cfg;
     blackName := saved_blackName cfg;
     suggestedMove := None;
     suggestionLoading := false;
     whiteTime := minutes (saved_timeControl cfg) * 60;
     blackTime := minutes (saved_timeControl cfg) * 60 |}.

(** The states a session passes through.  Completions of the two
    asynchronous calls may arrive at any time. *)
Inductive reachable : State -> Prop :=
| reachable_initial (cfg : Settings) : reachable (initialState cfg)
| reachable_step (s : State) (e : Event) : reachable s -> reachable (step s e).

End Controller.

(** *** Board orientation and the animation offset (lines 307-312, 454-468) *)

Definition boardRows : list Z := [8; 7; 6; 5; 4; 3; 2; 1].

(** ['a' ... 'h'], each one-character string as its code unit. *)
Definition boardCols : list N := [97; 98; 99; 100; 101; 102; 103; 104]%N.

Definition displayRows (orientation : Chess.Color) : list Z :=
  match orientation with Chess.White => boardRows | Chess.Black => rev boardRows end.

Definition displayCols (orientation : Chess.Color) : list N :=
  match orientation with Chess.White => boardCols | Chess.Black => rev boardCols end.

(** [displayRows.indexOf(parseInt(sq[1]))]; NaN is found nowhere. *)
Definition rowIndex (orientation : Chess.Color) (sq : jsstring) : Z :=
  match parseInt (charAt sq 1) with
  | Some n => indexOf Z.eqb n (displayRows orientation)
  | None => -1
  end.

(** [displayCols.indexOf(sq[0])]; [undefined] is found nowhere. *)
Definition colIndex (orientation : Chess.Color) (sq : jsstring) : Z :=
  match charAt sq 0 with
  | Some c => indexOf N.eqb c (displayCols orientation)
  | None => -1
  end.

Record Offset : Type := { x : Z; y : Z }.

(** The block of lines 456-467, for a last move [from]-[to]. *)
Definition offsetOf (orientation : Chess.Color) (from to : jsstring) : option Offset :=
  let fromRowIndex := rowIndex orientation from in
  let fromColIndex := colIndex orientation from in
  let toRowIndex := rowIndex orientation to in
  let toColIndex := colIndex orientation to in
  (* If we found the squares in the current display grid *)
  if negb (fromRowIndex =? -1) && negb (toRowIndex =? -1) then
    Some {| x := fromColIndex - toColIndex; y := fromRowIndex - toRowIndex |}
  else None.

(** [animationOffset] of the grid cell [square] (lines 454-468). *)
Definition animationOffset (orientation : Chess.Color) (lastMove : option LastMove)
    (square : jsstring) : option Offset :=
  match lastMove with
  | Some lm =>
      if JS.eqb (lm_to lm) square then offsetOf orientation (lm_from lm) (lm_to lm)
      else None
  | None => None
  end.


End App.

(* ================================================================= *)
(** ** An engine to run the controller on

    [ToyChess] plays chess without castling, en passant, under-promotion and
    the draw rules other than stalemate, and writes notation without
    disambiguation.  On the opening positions used below its legal moves
    and their notation are those of chess. *)

Module ToyChess.

Import Chess.

(** A board gives the piece on each square. *)
Definition Board : Type := Square -> option Piece.

Definition files : list File := [Fa; Fb; Fc; Fd; Fe; Ff; Fg; Fh].
Definition ranks : list Rank := [R1; R2; R3; R4; R5; R6; R7; R8].

Definition squares : list Square :=
  flat_map (fun r => map (fun f => {| file := f; rank := r |}) files) ranks.

Definition fileAt (i : Z) : option File :=
  if (0 <=? i) && (i <? 8) then nth_error files (Z.to_nat i) else None.

Definition rankAt (n : Z) : option Rank :=
  if (1 <=? n) && (n <=? 8) then nth_error ranks (Z.to_nat (n - 1)) else None.

(** The square [df] files and [dr] ranks away, if on the board. *)
Definition offset (sq : Square) (df dr : Z) : option Square :=
  match fileAt (fileIndex (file sq) + df), rankAt (rankNumber (rank sq) + dr) with
  | Some f, Some r => Some {| file := f; rank := r |}
  | _, _ => None
  end.

Definition pieceAt (b : Board) (sq : Square) : option Piece := b sq.

(** The occupied squares with their pieces. *)
Definition pieces (b : Board) : list (Square * Piece) :=
  flat_map (fun sq => match b sq with Some p => [(sq, p)] | None => [] end) squares.

Definition other (c : Color) : Color :=
  match c with White => Black | Black => White end.

Definition ownedBy (c : Color) (b : Board) (sq : Square) : bool :=
  match pieceAt b sq with
  | Some p => Color_eqb (color p) c
  | None => false
  end.

Definition occupied (b : Board) (sq : Square) : bool :=
  match pieceAt b sq with Some _ => true | None => false end.

(** The squares a slider reaches in one direction. *)
Fixpoint ray (fuel : nat) (b : Board) (c : Color) (sq : Square) (df dr : Z) : list Square :=
  match fuel with
  | O => []
  | S fuel' =>
      match offset sq df dr with
      | None => []
      | Some next =>
          if ownedBy c b next then []
          else if occupied b next then [next]
          else next :: ray fuel' b c next df dr
      end
  end.

Definition leaps (b : Board) (c : Color) (sq : Square) (ds : list (Z * Z)) : list Square :=
  flat_map (fun d =>
              match offset sq (fst d) (snd d) with
              | Some next => if ownedBy c b next then [] else [next]
              | None => []
              end) ds.

Definition diagonals : list (Z * Z) := [(1, 1); (1, -1); (-1, 1); (-1, -1)].
Definition straights : list (Z * Z) := [(1, 0); (-1, 0); (0, 1); (0, -1)].
Definition knightLeaps : list (Z * Z) :=
  [(1, 2); (2, 1); (2, -1); (1, -2); (-1, -2); (-2, -1); (-2, 1); (-1, 2)].

Definition pawnTargets (b : Board) (c : Color) (sq : Square) : list Square :=
  let dir := match c with White => 1 | Black => -1 end in
  let home := match c with White => 2 | Black => 7 end in
  let pushes :=
    match offset sq 0 dir with
    | Some one =>
        if occupied b one then []
        else one ::
             (if rankNumber (rank sq) =? home then
                match offset sq 0 (2 * dir) with
                | Some two => if occupied b two then [] else [two]
                | None => []
                end
              else [])
    | None => []
    end in
  let takes :=
    flat_map (fun df =>
                match offset sq df dir with
                | Some t => if ownedBy (other c) b t then [t] else []
                | None => []
                end) [-1; 1] in
  pushes ++ takes.

(** Where the piece on [sq] may go, king safety aside. *)
Definition targets (b : Board) (sq : Square) (p : Piece) : list Square :=
  let c := color p in
  match type p with
  | Pawn => pawnTargets b c sq
  | Knight => leaps b c sq knightLeaps
  | King => leaps b c sq (diagonals ++ straights)
  | Bishop => flat_map (fun d => ray 8 b c sq (fst d) (snd d)) diagonals
  | Rook => flat_map (fun d => ray 8 b c sq (fst d) (snd d)) straights
  | Queen => flat_map (fun d => ray 8 b c sq (fst d) (snd d)) (diagonals ++ straights)
  end.

Definition attacked (b : Board) (by_ : Color) (sq : Square) : bool :=
  existsb (fun e =>
             if Color_eqb (color (snd e)) by_
             then existsb (Square_eqb sq) (targets b (fst e) (snd e))
             else false) (pieces b).

Definition isKingOf (c : Color) (e : Square * Piece) : bool :=
  if Color_eqb (color (snd e)) c
  then match type (snd e) with King => true | _ => false end
  else false.

Definition kingAttacked (b : Board) (c : Color) : bool :=
  existsb (fun e => if isKingOf c e then attacked b (other c) (fst e) else false)
          (pieces b).

(** The board after the piece [p] goes from [src] to [dst]; a pawn
    reaching the last rank becomes a queen. *)
Definition relocate (b : Board) (src dst : Square) (p : Piece) : Board :=
  let arrived :=
    match type p, rankNumber (rank dst) with
    | Pawn, 8 | Pawn, 1 => {| type := Queen; color := color p |}
    | _, _ => p
    end in
  fun sq =>
    if Square_eqb sq dst then Some arrived
    else if Square_eqb sq src then None
    else b sq.

(** The legal moves of side [c] as (from, piece, to). *)
Definition legal (b : Board) (c : Color) : list (Square * Piece * Square) :=
  flat_map (fun e =>
              if Color_eqb (color (snd e)) c then
                flat_map (fun dst =>
                            if kingAttacked (relocate b (fst e) dst (snd e)) c then []
                            else [(fst e, snd e, dst)])
                         (targets b (fst e) (snd e))
              else []) (pieces b).

Definition letter (t : PieceSymbol) : string :=
  match t with
  | Pawn => EmptyString | Knight => "N" | Bishop => "B"
  | Rook => "R" | Queen => "Q" | King => "K"
  end.

Definition notation (b : Board) (c : Color) (src : Square) (p : Piece) (dst : Square) : jsstring :=
  let b' := relocate b src dst p in
  let takes := occupied b dst in
  lit (letter (type p)) ++
  (if takes then
     (match type p with Pawn => [Z.to_N (97 + fileIndex (file src))] | _ => [] end) ++ lit "x"
   else []) ++
  squareName dst ++
  (if kingAttacked b' (other c) then
     match legal b' (other c) with [] => lit "#" | _ :: _ => lit "+" end
   else []).

Definition verbose (b : Board) (c : Color) (m : Square * Piece * Square) : Move :=
  let '(src, p, dst) := m in
  {| from := src;
     to := dst;
     flags := if occupied b dst then lit "c"
              else match type p with
                   | Pawn => if Z.abs (rankNumber (rank dst) - rankNumber (rank src)) =? 2
                             then lit "b" else lit "n"
                   | _ => lit "n"
                   end;
     san := notation b c src p dst;
     captured := match pieceAt b dst with Some q => Some (type q) | None => None end |}.

Definition backRank (f : File) : PieceSymbol :=
  match f with
  | Fa | Fh => Rook
  | Fb | Fg => Knight
  | Fc | Ff => Bishop
  | Fd => Queen
  | Fe => King
  end.

Definition startBoard : Board :=
  fun sq =>
    match rank sq with
    | R1 => Some {| type := backRank (file sq); color := White |}
    | R2 => Some {| type := Pawn; color := White |}
    | R7 => Some {| type := Pawn; color := Black |}
    | R8 => Some {| type := backRank (file sq); color := Black |}
    | _ => None
    end.

(** The game: the board, the side to move, and the moves played, each with
    the board it was played on. *)
Record G : Type := {
  board : Board;
  side : Color;
  past : list (Board * Move)
}.

Definition start : G := {| board := startBoard; side := White; past := [] |}.

Definition movesOf (g : G) : list Move :=
  map (verbose (board g) (side g)) (legal (board g) (side g)).

Definition play (g : G) (a : MoveAttempt) : option (G * Move) :=
  match find (fun m => if Square_eqb (fst (fst m)) (a_from a)
                       then Square_eqb (snd m) (a_to a) else false)
             (legal (board g) (side g)) with
  | Some m =>
      let '(src, p, dst) := m in
      let mv := verbose (board g) (side g) m in
      Some ({| board := relocate (board g) src dst p;
               side := other (side g);
               past := past g ++ [(board g, mv)] |}, mv)
  | None => None
  end.

Definition takeBack (g : G) : G :=
  match rev (past g) with
  | [] => g
  | (b, _) :: earlier =>
      {| board := b; side := other (side g); past := rev earlier |}
  end.

Definition noMoves (g : G) : bool :=
  match legal (board g) (side g) with [] => true | _ :: _ => false end.

Definition pieceChar (p : Piece) : N :=
  let lower := match type p with
               | Pawn => 112 | Knight => 110 | Bishop => 98
               | Rook => 114 | Queen => 113 | King => 107
               end%N in
  match color p with White => (lower - 32)%N | Black => lower end.

(** One rank of the placement field, files a to h; [gap] counts the empty
    squares not yet written. *)
Fixpoint placementRow (b : Board) (r : Rank) (fs : list File) (gap : N) : jsstring :=
  match fs with
  | [] => if (gap =? 0)%N then [] else [(48 + gap)%N]
  | f :: rest =>
      match pieceAt b {| file := f; rank := r |} with
      | Some p =>
          (if (gap =? 0)%N then [] else [(48 + gap)%N]) ++
          pieceChar p :: placementRow b r rest 0
      | None => placementRow b r rest (gap + 1)
      end
  end.

(** Piece placement and side to move, the first two fields of a FEN. *)
Definition position (g : G) : jsstring :=
  concat (map (fun r => placementRow (board g) r files 0 ++
                        match r with R1 => [] | _ => lit "/" end)
              (rev ranks)) ++
  lit " " ++ match side g with White => lit "w" | Black => lit "b" end.

#[export] Instance engine : Engine := {|
  Game := G;
  newGame := start;
  fen := position;
  turn := side;
  inCheck := fun g => kingAttacked (board g) (side g);
  isGameOver := noMoves;
  isCheckmate := fun g => kingAttacked (board g) (side g) && noMoves g;
  isDraw := fun g => negb (kingAttacked (board g) (side g)) && noMoves g;
  isStalemate := fun g => negb (kingAttacked (board g) (side g)) && noMoves g;
  history := fun g => map snd (past g);
  get := fun g sq => pieceAt (board g) sq;
  moves := movesOf;
  movesFrom := fun g sq => filter (fun m => Square_eqb (from m) sq) (movesOf g);
  move := play;
  undo := takeBack;
  reset := fun _ => start
|}.

End ToyChess.

Import App.

(* ================================================================= *)
(** ** Vocabulary of the properties, and sample sessions *)

(** The part of the state that [reset] is to bring back to its initial
    value, over the engine's type of games. *)
Record Fresh (Position : Type) : Type := {
  f_game : Position;
  f_fen : jsstring;
  f_turn : Chess.Color;
  f_clocks : Z * Z;
  f_history : nat * option LastMove;
  f_outcome : bool * jsstring;
  f_selection : option Chess.Square * list jsstring;
  f_recommendation : option Suggestion;
  f_commentary : jsstring
}.
Arguments f_game {Position} _.
Arguments f_fen {Position} _.
Arguments f_turn {Position} _.
Arguments f_clocks {Position} _.
Arguments f_history {Position} _.
Arguments f_outcome {Position} _.
Arguments f_selection {Position} _.
Arguments f_recommendation {Position} _.
Arguments f_commentary {Position} _.

Section Vocabulary.

Context {E : Chess.Engine}.

(** The outcome as the component holds it: [None] while the game is active,
    the status text once it is over. *)
Definition outcome (s : State) : option jsstring :=
  if gameOver s then Some (gameStatus s) else None.

Definition remaining (c : Chess.Color) (s : State) : Z :=
  match c with Chess.White => whiteTime s | Chess.Black => blackTime s end.

Definition opponent (c : Chess.Color) : Chess.Color :=
  match c with Chess.White => Chess.Black | Chess.Black => Chess.White end.

Definition displayName (c : Chess.Color) (s : State) : jsstring :=
  match c with Chess.White => displayWhiteName s | Chess.Black => displayBlackName s end.

(** While the game is active both clocks are above zero. *)
Definition clocksRunning (s : State) : Prop :=
  gameOver s = false -> 0 < whiteTime s /\ 0 < blackTime s.

(** The [turn] state variable mirrors the engine. *)
Definition turnInSync (s : State) : Prop := turn s = Chess.turn (game s).

(** The selection is empty or a square holding a piece of the side to
    move. *)
Definition selectionValid (s : State) : Prop :=
  match selectedSquare s with
  | None => True
  | Some sq =>
      exists piece, Chess.get (game s) sq = Some piece /\
                    Chess.color piece = Chess.turn (game s)
  end.

(** The selection a fresh click on [square] makes (lines 241-251). *)
Definition freshSelection (s : State) (square : Chess.Square) : option Chess.Square :=
  match Chess.get (game s) square with
  | Some piece =>
      if Chess.Color_eqb (Chess.color piece) (Chess.turn (game s)) then Some square
      else None
  | None => None
  end.

Definition freshOf (s : State) : Fresh Chess.Game :=
  {| f_game := game s;
     f_fen := fen s;
     f_turn := turn s;
     f_clocks := (whiteTime s, blackTime s);
     f_history := (historyCount s, lastMove s);
     f_outcome := (gameOver s, gameStatus s);
     f_selection := (selectedSquare s, possibleMoves s);
     f_recommendation := suggestedMove s;
     f_commentary := coachTip s |}.

Definition isResolution (e : Event) : bool :=
  match e with SuggestionResolved _ => true | _ => false end.

End Vocabulary.

Module Sample.

Import Chess.

Definition a2 : Square := {| file := Fa; rank := R2 |}.
Definition a3 : Square := {| file := Fa; rank := R3 |}.
Definition b8 : Square := {| file := Fb; rank := R8 |}.
Definition c6 : Square := {| file := Fc; rank := R6 |}.
Definition e2 : Square := {| file := Fe; rank := R2 |}.
Definition e5 : Square := {| file := Fe; rank := R5 |}.
Definition f3 : Square := {| file := Ff; rank := R3 |}.
Definition g1 : Square := {| file := Fg; rank := R1 |}.

(** One minute a side, default names. *)
Definition bullet : Settings :=
  {| saved_timeControl := TC1;
     saved_whiteName := lit "White";
     saved_blackName := lit "Black" |}.

(** The first render, on [ToyChess]. *)
Definition opening : @State ToyChess.engine := initialState bullet.

(** After 1. Nf3 Nc6, played by clicks. *)
Definition twoKnights : @State ToyChess.engine :=
  run opening [SquareClick g1 0; SquareClick f3 0; SquareClick b8 0; SquareClick c6 0].

(** After 1. f3 e5 2. g4 Qh4, played by clicks: White is mated. *)
Definition foolsMate : @State ToyChess.engine :=
  run opening
    [SquareClick {| file := Ff; rank := R2 |} 0; SquareClick f3 0;
     SquareClick {| file := Fe; rank := R7 |} 0; SquareClick e5 0;
     SquareClick {| file := Fg; rank := R2 |} 0;
     SquareClick {| file := Fg; rank := R4 |} 0;
     SquareClick {| file := Fd; rank := R8 |} 0;
     SquareClick {| file := Fh; rank := R4 |} 0].

(** White lets the minute run out, with the pawn on e2 selected. *)
Definition flagged : @State ToyChess.engine :=
  run opening (SquareClick e2 0 :: repeat Tick 60).

(** An analysis that recommends knight to d4. *)
Definition knightToD4 : AnalysisResult :=
  {| evaluation := lit "Equal";
     bestMove := Some (lit "Nd4");
     explanation := lit "Centralize the knight." |}.

(** An environment with a key whose service always rejects. *)
Definition failingEnv : Env :=
  {| API_KEY := Some (lit "k"); generateContent := fun _ _ _ => Rejected |}.

End Sample.


(* ================================================================= *)
(** ** The position analysis (services/geminiService, [analyzeBoard]) *)

Module Analysis.

(** A value [JSON.parse] returns.  A number is the double it denotes; the
    members of an object are in the order of the text. *)
#[warnings="-register-all"]
Inductive Value : Type :=
| VNull
| VBool (b : bool)
| VNumber (x : PrimFloat.float)
| VString (s : jsstring)
| VArray (items : list Value)
| VObject (members : list (jsstring * Value)).

(** [ToBoolean]: false for [null], [false], [0], [-0], [NaN] and the empty
    string, true for every other value. *)
Definition truthyValue (v : Value) : bool :=
  match v with
  | VNull => false
  | VBool b => b
  | VNumber x =>
      if PrimFloat.eqb x x then negb (PrimFloat.eqb x PrimFloat.zero) else false
  | VString s => truthy s
  | VArray _ => true
  | VObject _ => true
  end.

(** [v.name] for a value [v] other than [null], and for the three names
    [analyzeBoard] reads; [None] is [undefined].  An object has the members
    [JSON.parse] gave it, the last one where a name is repeated; a boolean,
    a number, a string and an array have no property of these names. *)
Definition property (v : Value) (name : string) : option Value :=
  match v with
  | VObject members =>
      match find (fun m => JS.eqb (fst m) (lit name)) (rev members) with
      | Some m => Some (snd m)
      | None => None
      end
  | _ => None
  end.

(** The environment of [analyzeBoard]: that of [getCoachTip] for the key,
    the remote call [generateContent] with
    [config: {responseMimeType: "application/json"}], and [JSON.parse],
    [None] where it throws. *)
Record Env : Type := {
  base : Gemini.Env;
  generateJSON : jsstring -> jsstring -> jsstring -> Settled (option jsstring);
  JSON_parse : jsstring -> option Value
}.

Definition newline : jsstring := [10%N].
Definition quote : jsstring := [34%N].

(** The template literal of lines 24-36. *)
Definition analysisPrompt (fen turnColor : jsstring) : jsstring :=
  newline ++
  lit "    You are a Chess Grandmaster engine. Analyze this board position given in FEN notation." ++
  newline ++ lit "    FEN: " ++ fen ++ newline ++ lit "    " ++ newline ++
  lit "    The current turn is: " ++ turnColor ++ lit "." ++ newline ++ lit "    " ++
  newline ++ lit "    Provide a structured JSON response with the following fields:" ++
  newline ++ lit "    1. evaluation: A short string (e.g., " ++ quote ++
  lit "White is winning" ++ quote ++ lit ", " ++ quote ++ lit "Equal" ++ quote ++ lit ", " ++
  quote ++ lit "Black has advantage" ++ quote ++ lit ")." ++ newline ++
  lit "    2. bestMove: The single best move in Standard Algebraic Notation (SAN) for the current player (e.g., " ++
  quote ++ lit "Nf3" ++ quote ++ lit ", " ++ quote ++ lit "O-O" ++ quote ++ lit ")." ++
  newline ++
  lit "    3. explanation: A concise (max 2 sentences) strategic explanation of why this move is best or the current state of the game." ++
  newline ++ lit "    " ++ newline ++
  lit "    Do not use Markdown code blocks. Just return the raw JSON." ++ newline ++ lit "  ".

(** What [analyzeBoard] resolves to.  The function declares an
    [AnalysisResult], but on the parsed path the fields hold whatever
    values the parsed object has; [None] is a [bestMove] that is
    [undefined]. *)
Record Answer : Type := {
  a_evaluation : Value;
  a_bestMove : option Value;
  a_explanation : Value
}.

(** The answer as an [AnalysisResult], when its fields have the declared
    types: two strings, and a string or nothing for the best move.  The
    session and the dialog are given answers of this type. *)
Definition declared (a : Answer) : option AnalysisResult :=
  match a_evaluation a, a_bestMove a, a_explanation a with
  | VString ev, None, VString ex =>
      Some {| evaluation := ev; bestMove := None; explanation := ex |}
  | VString ev, Some (VString bm), VString ex =>
      Some {| evaluation := ev; bestMove := Some bm; explanation := ex |}
  | _, _, _ => None
  end.

(** The value of the [catch] block (lines 57-63). *)
Definition analysisFailed : Answer :=
  {| a_evaluation := VString (lit "Analysis Failed");
     a_bestMove := None;
     a_explanation := VString (lit "Could not analyze position at this time.") |}.

(** [x || fallback] for a property read [x] and a string [fallback]. *)
Definition orDefault (x : option Value) (fallback : jsstring) : Value :=
  match x with
  | Some v => if truthyValue v then v else VString fallback
  | None => VString fallback
  end.

(** Lines 13-64. *)
Definition analyzeBoard (env : Env) (fen : jsstring) (turn : Chess.Color)
    : Settled Answer :=
  match getClient (base env) with
  | None =>
      Fulfilled {| a_evaluation := VString (lit "Error");
                   a_bestMove := None;
                   a_explanation := VString (lit "API Key missing. Cannot analyze.") |}
  | Some apiKey =>
      let turnColor := match turn with
                       | Chess.White => lit "White"
                       | Chess.Black => lit "Black"
                       end in
      let prompt := analysisPrompt fen turnColor in
      match generateJSON env apiKey (lit "gemini-3-flash-preview") prompt with
      | Rejected => Fulfilled analysisFailed
      | Fulfilled None => Fulfilled analysisFailed
      | Fulfilled (Some text) =>
          if negb (truthy text) then Fulfilled analysisFailed
          else
            match JSON_parse env text with
            | None => Fulfilled analysisFailed          (* [JSON.parse] throws *)
            | Some VNull => Fulfilled analysisFailed    (* [null.evaluation] throws *)
            | Some result =>
                Fulfilled
                  {| a_evaluation := orDefault (property result "evaluation") (lit "Unknown");
                     a_bestMove := property result "bestMove";
                     a_explanation :=
                       orDefault (property result "explanation")
                                 (lit "No explanation provided.") |}
            end
      end
  end.

End Analysis.

(* ================================================================= *)
(** ** What the component renders from its state (src/App.tsx) *)

Module View.

(** [Number.MAX_SAFE_INTEGER], 2^53 - 1: up to it every integer is a
    double of its own. *)
Definition MAX_SAFE_INTEGER : Z := 9007199254740991.

(** [String(n)] for a number [n] that is an integer with
    [|n| <= MAX_SAFE_INTEGER]: all its decimal digits.  (From 1e21 on
    JavaScript writes an exponent, and between the two it rounds the
    digits; no number of the component comes near: the clocks are whole
    seconds from 0 to 1800.) *)
Definition numberToString (n : Z) : jsstring :=
  lit (NilZero.string_of_int (Z.to_int n)).

(** [s.padStart(targetLength, padString)] *)
Definition padStart (s : jsstring) (targetLength : nat) (padString : jsstring) : jsstring :=
  let missing := (targetLength - List.length s)%nat in
  match padString with
  | [] => s
  | _ :: _ => firstn missing (concat (repeat padString missing)) ++ s
  end.

(** Lines 140-144, for whole seconds with [|seconds| <= MAX_SAFE_INTEGER].
    There [Math.floor(seconds / 60)] is the floored quotient (the double
    division is off by less than 1/60) and [seconds % 60], which is exact,
    the remainder with the sign of [seconds]. *)
Definition formatTime (seconds : Z) : jsstring :=
  let mins := seconds / 60 in
  let secs := Z.rem seconds 60 in
  numberToString mins ++ lit ":" ++ padStart (numberToString secs) 2 (lit "0").

(** Lines 331-341; [boardTheme] is whatever string the settings hold. *)
Definition getThemeColors (boardTheme : jsstring) (isBlack : bool) : jsstring :=
  if JS.eqb boardTheme (lit "brown") then
    if isBlack then lit "bg-[#b58863]" else lit "bg-[#f0d9b5]"
  else if JS.eqb boardTheme (lit "blue") then
    if isBlack then lit "bg-[#4b7399]" else lit "bg-[#eae9d2]"
  else if JS.eqb boardTheme (lit "slate") then
    if isBlack then lit "bg-slate-600" else lit "bg-slate-400"
  else if JS.eqb boardTheme (lit "purple") then
    if isBlack then lit "bg-[#8b5cf6]" else lit "bg-[#e9d5ff]"
  else if JS.eqb boardTheme (lit "burgundy") then
    if isBlack then lit "bg-[#9f1239]" else lit "bg-[#fecdd3]"
  else
    if isBlack then lit "bg-[#779556]" else lit "bg-[#ebecd0]".

(** Lines 343-353. *)
Definition getThemeTextColors (boardTheme : jsstring) (isBlack : bool) : jsstring :=
  if JS.eqb boardTheme (lit "brown") then
    if isBlack then lit "text-[#f0d9b5]" else lit "text-[#b58863]"
  else if JS.eqb boardTheme (lit "blue") then
    if isBlack then lit "text-[#eae9d2]" else lit "text-[#4b7399]"
  else if JS.eqb boardTheme (lit "slate") then
    if isBlack then lit "text-slate-400" else lit "text-slate-600"
  else if JS.eqb boardTheme (lit "purple") then
    if isBlack then lit "text-[#e9d5ff]" else lit "text-[#8b5cf6]"
  else if JS.eqb boardTheme (lit "burgundy") then
    if isBlack then lit "text-[#fecdd3]" else lit "text-[#9f1239]"
  else
    if isBlack then lit "text-[#ebecd0]" else lit "text-[#779556]".

(** Line 427: [`${col}${row}`] for a column letter and a row number. *)
Definition cellName (col : N) (row : Z) : jsstring := [col] ++ numberToString row.

(** Lines 425-427: the squares of the grid in the order they are rendered,
    row by row. *)
Definition gridSquares (orientation : Chess.Color) : list jsstring :=
  flat_map (fun row => map (fun col => cellName col row) (displayCols orientation))
           (displayRows orientation).

(** Line 428. *)
Definition isBlackSquare (row : Z) (col : N) : bool :=
  Z.rem (indexOf Z.eqb row boardRows + indexOf N.eqb col boardCols) 2 =? 1.

(** The row number and the column letter of a square of the engine. *)
Definition rowOf (sq : Chess.Square) : Z := Chess.rankNumber (Chess.rank sq).
Definition colOf (sq : Chess.Square) : N := Z.to_N (97 + Chess.fileIndex (Chess.file sq)).

End View.

(* ================================================================= *)
(** ** The analysis dialog (src/App.tsx, lines 38-41 and 278-285;
       components/AnalysisModal.tsx) *)

Module Dialog.

Record Panel : Type := {
  isAnalysisOpen : bool;
  analysisLoading : bool;
  analysisResult : option AnalysisResult
}.


(** Lines 278-282: [handleAnalyze] up to its [await], on the live game. *)
Definition handleAnalyze {E : Chess.Engine} (game : Chess.Game) (p : Panel)
    : Panel * list Effect :=
  ({| isAnalysisOpen := true;
      analysisLoading := true;
      analysisResult := analysisResult p |},
   [CallAnalyzeBoard (Chess.fen game) (Chess.turn game)]).

(** Lines 283-284: [handleAnalyze] resumed with the awaited result. *)
Definition handleAnalyze_resumed (result : AnalysisResult) (p : Panel) : Panel :=
  {| isAnalysisOpen := isAnalysisOpen p;
     analysisLoading := false;
     analysisResult := Some result |}.

(** Line 659: [onClose]. *)
Definition closeAnalysis (p : Panel) : Panel :=
  {| isAnalysisOpen := false;
     analysisLoading := analysisLoading p;
     analysisResult := analysisResult p |}.

(** The Coach button: [disabled={gameOver}] (line 631). *)
Definition coachButton {E : Chess.Engine} (s : State) (p : Panel) : Panel * list Effect :=
  if gameOver s then (p, []) else handleAnalyze (game s) p.

Inductive PanelEvent : Type :=
| CoachClick
| AnalysisResolved (result : AnalysisResult)
| CloseClick.

(** One event of the dialog while the session is in state [s]. *)
Definition panelStep {E : Chess.Engine} (s : State) (p : Panel) (e : PanelEvent) : Panel :=
  match e with
  | CoachClick => fst (coachButton s p)
  | AnalysisResolved result => handleAnalyze_resumed result p
  | CloseClick => closeAnalysis p
  end.





End Dialog.

(* ================================================================= *)
(** ** Saved settings (src/App.tsx, lines 46-70) *)

Module Saved.

(** The values [JSON.parse] returns, as far as the settings go. *)
Inductive Json : Type :=
| JNull
| JBool (b : bool)
| JInteger (n : Z)
| JString (s : jsstring)
| JOther.                          (* any other number, an array, an object *)

(** [localStorage]: [getItem] of a key, [None] for [null]. *)
Definition LocalStorage : Type := jsstring -> option jsstring.

Definition setItem (key value : jsstring) (store : LocalStorage) : LocalStorage :=
  fun k => if JS.eqb k key then Some value else store k.

Section WithJSON.

(** [JSON.parse], [None] where it throws, and [JSON.stringify]. *)
Variable JSON_parse : jsstring -> option Json.
Variable JSON_stringify : Json -> jsstring.

(** Lines 47-54. *)
Definition getSavedSetting (store : LocalStorage) (key : string) (defaultValue : Json) : Json :=
  match store (lit key) with
  | Some saved =>
      if truthy saved then
        match JSON_parse saved with
        | Some value => value
        | None => defaultValue
        end
      else defaultValue
  | None => defaultValue
  end.

(** The five settings, as the values the state variables are given. *)
Record Prefs : Type := {
  p_timeControl : Json;
  p_boardTheme : Json;
  p_soundEnabled : Json;
  p_whiteName : Json;
  p_blackName : Json
}.

(** Lines 57-61: the initial values of the settings. *)
Definition load (store : LocalStorage) : Prefs :=
  {| p_timeControl := getSavedSetting store "chess_timeControl" (JInteger 10);
     p_boardTheme := getSavedSetting store "chess_boardTheme" (JString (lit "green"));
     p_soundEnabled := getSavedSetting store "chess_soundEnabled" (JBool true);
     p_whiteName := getSavedSetting store "chess_whiteName" (JString (lit "White"));
     p_blackName := getSavedSetting store "chess_blackName" (JString (lit "Black")) |}.

(** Lines 64-70: the effect that persists the settings. *)
Definition persist (p : Prefs) (store : LocalStorage) : LocalStorage :=
  setItem (lit "chess_blackName") (JSON_stringify (p_blackName p))
    (setItem (lit "chess_whiteName") (JSON_stringify (p_whiteName p))
       (setItem (lit "chess_soundEnabled") (JSON_stringify (p_soundEnabled p))
          (setItem (lit "chess_boardTheme") (JSON_stringify (p_boardTheme p))
             (setItem (lit "chess_timeControl") (JSON_stringify (p_timeControl p))
                store)))).

End WithJSON.

Definition defaults : Prefs :=
  {| p_timeControl := JInteger 10;
     p_boardTheme := JString (lit "green");
     p_soundEnabled := JBool true;
     p_whiteName := JString (lit "White");
     p_blackName := JString (lit "Black") |}.

Definition keys : list jsstring :=
  [lit "chess_timeControl"; lit "chess_boardTheme"; lit "chess_soundEnabled";
   lit "chess_whiteName"; lit "chess_blackName"].

End Saved.

(* ================================================================= *)
(** ** The player panels and the labels of the board (src/App.tsx,
       lines 314-328, 355-364, 410-416, 478-487 and 578-584) *)

Module Panels.

(** [s.startsWith(prefix)] and [s.includes(sub)]. *)
Fixpoint startsWith (s prefix : jsstring) : bool :=
  match prefix, s with
  | [], _ => true
  | _ :: _, [] => false
  | p :: prefix', c :: s' => if N.eqb c p then startsWith s' prefix' else false
  end.

Fixpoint includes (s sub : jsstring) : bool :=
  if startsWith s sub then true
  else match s with
       | [] => false
       | _ :: s' => includes s' sub
       end.

Record PlayerStatus : Type := {
  isTurn : bool;
  isPlayerInCheck : bool;
  isWinner : bool;
  timeLeft : Z
}.

Section WithEngine.

Context {E : Chess.Engine}.

(** Lines 315-322. *)
Definition getPlayerStatus (s : State) (playerColor : Chess.Color) : PlayerStatus :=
  let isTurn := Chess.Color_eqb (turn s) playerColor in
  let isPlayerInCheck := if isCheck s then isTurn else false in
  let isWinner :=
    if gameOver s
    then includes (gameStatus s)
           (match playerColor with
            | Chess.White => lit "White wins"
            | Chess.Black => lit "Black wins"
            end)
    else false in
  let timeLeft := match playerColor with
                  | Chess.White => whiteTime s
                  | Chess.Black => blackTime s
                  end in
  {| isTurn := isTurn; isPlayerInCheck := isPlayerInCheck;
     isWinner := isWinner; timeLeft := timeLeft |}.

(** Lines 324-325. *)
Definition opponentColor (s : State) : Chess.Color :=
  match orientation s with Chess.White => Chess.Black | Chess.Black => Chess.White end.

Definition playerColor (s : State) : Chess.Color :=
  match orientation s with Chess.White => Chess.White | Chess.Black => Chess.Black end.

(** Lines 327-328. *)
Definition opponentStatus (s : State) : PlayerStatus := getPlayerStatus s (opponentColor s).
Definition playerStatus (s : State) : PlayerStatus := getPlayerStatus s (playerColor s).

(** What a [TimerDisplay] shows (lines 355-364): the time, whether the
    timer is lit as the one that runs, and whether it pulses red. *)
Record Timer : Type := {
  shownTime : jsstring;
  lit_up : bool;
  alarm : bool
}.

Definition TimerDisplay (time : Z) (isTurn isLowTime : bool) : Timer :=
  {| shownTime := View.formatTime time;
     lit_up := isTurn;
     alarm := if isLowTime then isTurn else false |}.

(** Lines 410-416 and 578-584. *)
Definition timerOf (s : State) (status : PlayerStatus) : Timer :=
  TimerDisplay (timeLeft status)
               (if isTurn status then negb (gameOver s) else false)
               (timeLeft status <? 60).

Definition opponentTimer (s : State) : Timer := timerOf s (opponentStatus s).
Definition playerTimer (s : State) : Timer := timerOf s (playerStatus s).

End WithEngine.

(** The labels of a cell of the grid (lines 478-487): the row number, on
    the first column when White is at the bottom, and the column letter, on
    row 1 when White is at the bottom and on row 8 otherwise. *)
Definition rankLabel (orientation : Chess.Color) (colIndex : nat) (row : Z) : option Z :=
  if (if Nat.eqb colIndex 0 then Chess.Color_eqb orientation Chess.White else false)
  then Some row else None.

Definition fileLabel (orientation : Chess.Color) (row : Z) (col : N) : option N :=
  if row =? (match orientation with Chess.White => 1 | Chess.Black => 8 end)
  then Some col else None.

(** [l.map((x, i) => f(x, i))] *)
Fixpoint mapWithIndexFrom {A B : Type} (f : A -> nat -> B) (l : list A) (i : nat) : list B :=
  match l with
  | [] => []
  | x :: r => f x i :: mapWithIndexFrom f r (S i)
  end.

(** Lines 425-427 with the labels: each cell of the grid, in the order
    rendered, with its rank label and its file label. *)
Definition gridLabels (orientation : Chess.Color)
    : list (jsstring * option Z * option N) :=
  flat_map (fun row =>
              mapWithIndexFrom
                (fun col colIndex =>
                   (View.cellName col row,
                    rankLabel orientation colIndex row,
                    fileLabel orientation row col))
                (displayCols orientation) 0)
           (displayRows orientation).

Definition rankLabels (orientation : Chess.Color) : list (jsstring * Z) :=
  flat_map (fun c => match snd (fst c) with
                     | Some r => [(fst (fst c), r)]
                     | None => []
                     end) (gridLabels orientation).

Definition fileLabels (orientation : Chess.Color) : list (jsstring * N) :=
  flat_map (fun c => match snd c with
                     | Some f => [(fst (fst c), f)]
                     | None => []
                     end) (gridLabels orientation).

End Panels.

(* ================================================================= *)
(** ** The whole component (src/App.tsx): the session, the analysis
       dialog and the settings that the session does not read *)

Module Component.

Section WithEngine.

Context {E : Chess.Engine}.

Record State : Type := {
  session : App.State;
  panel : Dialog.Panel;
  isSettingsOpen : bool;
  boardTheme : jsstring;
  soundEnabled : bool
}.

(** Every handler the component binds to an element or starts itself:
    those of the session, those of the analysis dialog with the Coach
    button (lines 629-636 and 657-662), the Settings button (line 379),
    and in the settings dialog [onClose], the theme buttons and the sound
    switch (SettingsModal.tsx, lines 56, 132, 151 and 163). *)
Inductive Event : Type :=
| Session (e : App.Event)
| Panel (e : Dialog.PanelEvent)
| SettingsClick
| SettingsClosed
| ThemeChosen (theme : jsstring)
| SoundToggled.

(** One event: the state after it, and the calls to the analysis service
    it issues. *)
Definition dispatch (c : State) (e : Event) : State * list Effect :=
  match e with
  | Session e' =>
      let '(s', out) := App.dispatch (session c) e' in
      ({| session := s'; panel := panel c; isSettingsOpen := isSettingsOpen c;
          boardTheme := boardTheme c; soundEnabled := soundEnabled c |}, out)
  | Panel e' =>
      ({| session := session c; panel := Dialog.panelStep (session c) (panel c) e';
          isSettingsOpen := isSettingsOpen c;
          boardTheme := boardTheme c; soundEnabled := soundEnabled c |},
       match e' with
       | Dialog.CoachClick => snd (Dialog.coachButton (session c) (panel c))
       | _ => []
       end)
  | SettingsClick =>
      ({| session := session c; panel := panel c; isSettingsOpen := true;
          boardTheme := boardTheme c; soundEnabled := soundEnabled c |}, [])
  | SettingsClosed =>
      ({| session := session c; panel := panel c; isSettingsOpen := false;
          boardTheme := boardTheme c; soundEnabled := soundEnabled c |}, [])
  | ThemeChosen theme =>
      ({| session := session c; panel := panel c; isSettingsOpen := isSettingsOpen c;
          boardTheme := theme; soundEnabled := soundEnabled c |}, [])
  | SoundToggled =>
      ({| session := session c; panel := panel c; isSettingsOpen := isSettingsOpen c;
          boardTheme := boardTheme c; soundEnabled := negb (soundEnabled c) |}, [])
  end.

End WithEngine.

End Component.


(* ================================================================= *)
(** ** More vocabulary, and more samples *)

(** What the takeback needs to know of the engine: [undo] takes back the
    move [move] has just played, which [history] lists last. *)
Class TakebackLaws (E : Chess.Engine) : Prop := {
  undo_move : forall g a g' m, Chess.move g a = Some (g', m) -> Chess.undo g' = g;
  history_move : forall g a g' m,
      Chess.move g a = Some (g', m) -> Chess.history g' = Chess.history g ++ [m]
}.


Section Invariants.

Context {E : Chess.Engine}.

(** The last move of the engine's history, as [updateGameState] records it
    (lines 157-162). *)
Definition lastMoveOf (g : Chess.Game) : option LastMove :=
  match lastOf (Chess.history g) with
  | Some last => Some {| lm_from := Chess.squareName (Chess.from last);
                         lm_to := Chess.squareName (Chess.to last);
                         lm_flags := Some (Chess.flags last) |}
  | None => None
  end.

(** The state variables that copy the engine agree with it. *)
Definition mirrorsInSync (s : State) : Prop :=
  fen s = Chess.fen (game s) /\
  turn s = Chess.turn (game s) /\
  isCheck s = Chess.inCheck (game s) /\
  historyCount s = List.length (Chess.history (game s)) /\
  lastMove s = lastMoveOf (game s).

(** While the game is active there is no status text, the engine's game
    is not over and both clocks are above zero. *)
Definition activeInvariant (s : State) : Prop :=
  gameOver s = false ->
  gameStatus s = [] /\ Chess.isGameOver (game s) = false /\
  0 < whiteTime s /\ 0 < blackTime s.

(** The destinations to highlight for a selection (line 246). *)
Definition destinationsOf (g : Chess.Game) (selected : option Chess.Square) : list jsstring :=
  match selected with
  | Some sq => map (fun m => Chess.squareName (Chess.to m)) (Chess.movesFrom g sq)
  | None => []
  end.

(** The coordinates [handleSuggestMove] takes from a move (line 301). *)
Definition suggestionOf (m : Chess.Move) : Suggestion :=
  {| sg_from := Chess.squareName (Chess.from m);
     sg_to := Chess.squareName (Chess.to m) |}.

(** The recommendation, if there is one, is a legal move of the live
    position. *)
Definition recommendationLegal (s : State) : Prop :=
  match suggestedMove s with
  | Some sg => exists m, In m (Chess.moves (game s)) /\ sg = suggestionOf m
  | None => True
  end.

Definition touchesClocks (e : Event) : bool :=
  match e with Tick | ResetClick => true | _ => false end.

End Invariants.

Module SampleJSON.

Import Saved.

(** A codec for the values of the settings: the literals, integers, and
    strings written between quotes without escapes. *)
Definition stringify (v : Json) : jsstring :=
  match v with
  | JNull => lit "null"
  | JBool true => lit "true"
  | JBool false => lit "false"
  | JInteger n => View.numberToString n
  | JString s => [34%N] ++ s ++ [34%N]
  | JOther => lit "{}"
  end.

Definition parse (text : jsstring) : option Json :=
  if JS.eqb text (lit "null") then Some JNull
  else if JS.eqb text (lit "true") then Some (JBool true)
  else if JS.eqb text (lit "false") then Some (JBool false)
  else match text with
       | 34%N :: rest =>
           match rev rest with
           | 34%N :: body => Some (JString (rev body))
           | _ => None
           end
       | _ =>
           match NilZero.int_of_string (string_of_list_ascii (map ascii_of_N text)) with
           | Some d => Some (JInteger (Z.of_int d))
           | None => None
           end
       end.

(** Three minutes, the blue board, no sound, two names. *)
Definition chosen : Prefs :=
  {| p_timeControl := JInteger 3;
     p_boardTheme := JString (lit "blue");
     p_soundEnabled := JBool false;
     p_whiteName := JString (lit "Ada");
     p_blackName := JString (lit "Bo") |}.

(** Nothing stored. *)
Definition empty : LocalStorage := fun _ => None.

(** A store whose time control is not JSON. *)
Definition corrupt : LocalStorage :=
  setItem (lit "chess_timeControl") (lit "{oops") empty.

End SampleJSON.

Module SampleAnalysis.

(** No API key. *)
Definition noKey : Analysis.Env :=
  {| Analysis.base := {| API_KEY := None; generateContent := fun _ _ _ => Rejected |};
     Analysis.generateJSON := fun _ _ _ => Rejected;
     Analysis.JSON_parse := fun _ => None |}.

(** A service that answers every request with an object recommending
    knight to d4. *)
Definition recommending : Analysis.Env :=
  {| Analysis.base := Sample.failingEnv;
     Analysis.generateJSON := fun _ _ _ => Fulfilled (Some (lit "{...}"));
     Analysis.JSON_parse := fun _ =>
       Some (Analysis.VObject [(lit "evaluation", Analysis.VString (lit "Equal"));
                               (lit "bestMove", Analysis.VString (lit "Nd4"))]) |}.

(** A service that answers every request with an object whose evaluation
    is an empty array. *)
Definition untyped : Analysis.Env :=
  {| Analysis.base := Sample.failingEnv;
     Analysis.generateJSON := fun _ _ _ => Fulfilled (Some (lit "{...}"));
     Analysis.JSON_parse := fun _ =>
       Some (Analysis.VObject [(lit "evaluation", Analysis.VArray [])]) |}.

End SampleAnalysis.

(* ================================================================= *)
(** ** Tactics *)

(** Everything a handler is made of, unfolded. *)
Ltac unfold_handlers :=
  unfold step, dispatch, runHandler, handlerOf,
    onSquareClick, selectNewSquare, takebackButton, undoMove, resetGame,
    hintButton, handleSuggestMove, handleSuggestMove_resumed, coachTip_resumed,
    timerTick, timeoutEffect, flipBoard, blurWhiteName, blurBlackName,
    updateGameState,
    setFen, setSelectedSquare, setPossibleMoves, setTurn, setIsCheck, setGameOver,
    setGameStatus, setCoachTip, setLastMove, setHistoryCount, setSuggestedMove,
    setSuggestionLoading, setTimeControl, setWhiteName, setBlackName,
    updWhiteTime, updBlackTime, setWhiteTime, setBlackTime,
    bind, rendered, ret, update, emit, gameRef.

(** Split on the first branch condition that is itself free of branches. *)
Ltac case_step :=
  match goal with
  | |- context [match ?p with (_, _) => _ end] => is_var p; destruct p
  | |- context [if ?c then _ else _] =>
      lazymatch c with
      | context [if _ then _ else _] => fail
      | context [match _ with _ => _ end] => fail
      | _ => destruct c eqn:?
      end
  | |- context [match ?c with Some _ => _ | None => _ end] =>
      lazymatch c with
      | context [if _ then _ else _] => fail
      | context [match _ with _ => _ end] => fail
      | _ => destruct c eqn:?
      end
  | |- context [match ?c with Chess.White => _ | Chess.Black => _ end] =>
      lazymatch c with
      | context [if _ then _ else _] => fail
      | context [match _ with _ => _ end] => fail
      | _ => destruct c eqn:?
      end
  end.

Ltac run_cases := cbn; repeat (case_step; cbn).

(** Comparisons on [Z] decided in the hypotheses, as propositions. *)
Ltac Z_of_bools :=
  repeat match goal with
    | H : (_ <=? _) = true |- _ => apply Z.leb_le in H
    | H : (_ <=? _) = false |- _ => apply Z.leb_gt in H
    | H : (_ <? _) = true |- _ => apply Z.ltb_lt in H
    | H : (_ <? _) = false |- _ => apply Z.ltb_ge in H
    | H : (_ =? _) = true |- _ => apply Z.eqb_eq in H
    | H : (_ =? _) = false |- _ => apply Z.eqb_neq in H
    end.

(** Split a conjunction into its conjuncts, and nothing else. *)
Ltac split_all := repeat match goal with |- _ /\ _ => split end.

(** One step of the session, by cases on its handler; the state after the
    step is kept as a variable while the cases are split. *)
Ltac step_cases :=
  match goal with
  | |- context [step ?s ?e] =>
      let s' := fresh "s'" in
      let H := fresh "Hstep" in
      remember (step s e) as s' eqn:H; revert H;
      unfold_handlers; run_cases; intros ->; cbn
  end.

Ltac rewrite_lastOf :=
  repeat match goal with
    | H : lastOf _ = _ |- _ => rewrite H
    end.

(* ================================================================= *)
(** * Properties *)

(** ** Strings and display names *)

Lemma JS_eqb_eq (a b : jsstring) : JS.eqb a b = true <-> a = b.
Proof.
  unfold JS.eqb. destruct (list_eq_dec N.eq_dec a b); split; congruence.
Qed.

Lemma JS_eqb_refl (a : jsstring) : JS.eqb a a = true.
Proof. apply JS_eqb_eq. reflexivity. Qed.

Lemma truthy_nonempty (s : jsstring) : truthy s = true <-> s <> [].
Proof. destruct s; cbn; split; congruence. Qed.

(** What [trimStart] leaves starts with a code unit that is not white space. *)
Lemma trimStart_head (s : jsstring) (c : N) (r : jsstring) :
  trimStart s = c :: r -> isWhiteSpace c = false.
Proof.
  induction s as [|d s IH]; cbn [trimStart]; intros H.
  - discriminate.
  - destruct (isWhiteSpace d) eqn:Hd.
    + apply IH. exact H.
    + injection H as -> _. exact Hd.
Qed.

(** A non-empty [trim] holds a code unit that is not white space. *)
Lemma trim_visible (s : jsstring) :
  trim s <> [] -> exists c, In c (trim s) /\ isWhiteSpace c = false.
Proof.
  unfold trim, trimEnd. intros H.
  destruct (trimStart (rev (trimStart s))) as [|c r] eqn:Ht.
  - cbn in H. congruence.
  - exists c. split.
    + apply in_rev. rewrite rev_involutive. left. reflexivity.
    + eapply trimStart_head. exact Ht.
Qed.

Lemma displayNameOf_cases (stored : jsstring) (fallback : string) :
  displayNameOf stored fallback =
  match trim stored with [] => lit fallback | _ :: _ => trim stored end.
Proof. unfold displayNameOf, orElse. destruct (trim stored); reflexivity. Qed.

Lemma displayNameOf_visible (stored : jsstring) (fallback : string) :
  (exists c, In c (lit fallback) /\ isWhiteSpace c = false) ->
  exists c, In c (displayNameOf stored fallback) /\ isWhiteSpace c = false.
Proof.
  intros Hf. rewrite displayNameOf_cases.
  destruct (trim stored) as [|c r] eqn:Ht.
  - exact Hf.
  - rewrite <- Ht. apply trim_visible. rewrite Ht. discriminate.
Qed.

(** C10, as stated: the displayed name equals the stored name whenever the
    trimmed stored name is non-empty.  This fails for the stored name
    " Al": its trimmed form "Al" is non-empty, and the displayed name is
    "Al", not the stored " Al". *)
Lemma displayed_name_differs_from_stored :
  trim (lit " Al") <> [] /\
  displayNameOf (lit " Al") "White" = lit "Al" /\
  displayNameOf (lit " Al") "White" <> lit " Al".
Proof. repeat split; vm_compute; discriminate. Qed.

(** C10, amended: the displayed name of either side is the trimmed stored
    name when that is non-empty and the default "White" (respectively
    "Black") otherwise; either way it holds a code unit that is not white
    space, so it never renders as blank. *)
Theorem displayed_name_trimmed_or_default :
  forall (E : Chess.Engine) (s : App.State),
    App.displayWhiteName s =
      match trim (App.whiteName s) with
      | [] => lit "White"
      | _ :: _ => trim (App.whiteName s)
      end /\
    App.displayBlackName s =
      match trim (App.blackName s) with
      | [] => lit "Black"
      | _ :: _ => trim (App.blackName s)
      end /\
    (exists c, In c (App.displayWhiteName s) /\ isWhiteSpace c = false) /\
    (exists c, In c (App.displayBlackName s) /\ isWhiteSpace c = false).
Proof.
  intros E s. unfold App.displayWhiteName, App.displayBlackName.
  repeat split; try apply displayNameOf_cases; apply displayNameOf_visible.
  - exists 87%N. split; [left; reflexivity | reflexivity].
  - exists 66%N. split; [left; reflexivity | reflexivity].
Qed.

(** ** The commentary operation *)

(** C9, as stated: the empty string on every failure path, a missing API
    key included.  With no key in the environment the operation returns
    the text "Coach unavailable.", which is not empty. *)
Lemma coach_tip_without_key_is_not_empty :
  let env := {| API_KEY := None; generateContent := fun _ _ _ => Rejected |} in
  getCoachTip env (lit "8/8/8/8/8/8/8/8 w - - 0 1") (lit "e4")
    = Fulfilled (lit "Coach unavailable.") /\
  getCoachTip env (lit "8/8/8/8/8/8/8/8 w - - 0 1") (lit "e4") <> Fulfilled [].
Proof. split; vm_compute; [reflexivity | discriminate]. Qed.

(** C9, amended: the promise of [getCoachTip] is always fulfilled, never
    rejected; it is fulfilled with the empty string when the call to the
    analysis service rejects or answers without text, and with
    "Coach unavailable." when the API key is missing or empty. *)
Theorem coach_tip_never_rejects :
  forall (env : Env) (fen lastMove : jsstring),
    (exists tip, getCoachTip env fen lastMove = Fulfilled tip) /\
    (getClient env = None ->
     getCoachTip env fen lastMove = Fulfilled (lit "Coach unavailable.")) /\
    (forall key,
       getClient env = Some key ->
       generateContent env key (lit "gemini-3-flash-preview") (coachPrompt fen lastMove)
         = Rejected ->
       getCoachTip env fen lastMove = Fulfilled []) /\
    (forall key,
       getClient env = Some key ->
       generateContent env key (lit "gemini-3-flash-preview") (coachPrompt fen lastMove)
         = Fulfilled None ->
       getCoachTip env fen lastMove = Fulfilled []).
Proof.
  intros env fen lastMove. unfold getCoachTip.
  repeat split.
  - destruct (getClient env) as [key|]; [|eexists; reflexivity].
    destruct (generateContent env key _ _); eexists; reflexivity.
  - intros ->. reflexivity.
  - intros key -> ->. reflexivity.
  - intros key -> ->. reflexivity.
Qed.

Lemma coach_tip_never_rejects_witness :
  getClient Sample.failingEnv = Some (lit "k") /\
  generateContent Sample.failingEnv (lit "k") (lit "gemini-3-flash-preview")
    (coachPrompt (lit "8/8/8/8/8/8/8/8 w - - 0 1") (lit "e4")) = Rejected /\
  getCoachTip Sample.failingEnv (lit "8/8/8/8/8/8/8/8 w - - 0 1") (lit "e4") = Fulfilled [].
Proof.
  split; [reflexivity | split; [reflexivity |]].
  apply (proj1 (proj2 (proj2
           (coach_tip_never_rejects Sample.failingEnv (lit "8/8/8/8/8/8/8/8 w - - 0 1") (lit "e4"))))
         (lit "k")); reflexivity.
Defined.

(** ** The animation offset *)

Lemma indexOfFrom_range {A : Type} (eqb : A -> A -> bool) (v : A) (l : list A) (i : Z) :
  indexOfFrom eqb v l i = -1 \/
  (i <= indexOfFrom eqb v l i < i + Z.of_nat (List.length l)).
Proof.
  revert i. induction l as [|a l IH]; intros i; cbn [indexOfFrom List.length].
  - left. reflexivity.
  - destruct (eqb a v).
    + right. lia.
    + destruct (IH (i + 1)) as [H|H]; [left; exact H | right; lia].
Qed.

(** An index is -1, for a square not found, or a position on the grid. *)
Lemma rowIndex_range (orientation : Chess.Color) (sq : jsstring) :
  rowIndex orientation sq = -1 \/ 0 <= rowIndex orientation sq < 8.
Proof.
  unfold rowIndex. destruct (parseInt (charAt sq 1)) as [n|]; [|left; reflexivity].
  unfold indexOf.
  destruct (indexOfFrom_range Z.eqb n (displayRows orientation) 0) as [H|H].
  - left. exact H.
  - right.
    assert (Hlen : List.length (displayRows orientation) = 8%nat)
      by (destruct orientation; reflexivity).
    rewrite Hlen in H. lia.
Qed.

Lemma colIndex_range (orientation : Chess.Color) (sq : jsstring) :
  colIndex orientation sq = -1 \/ 0 <= colIndex orientation sq < 8.
Proof.
  unfold colIndex. destruct (charAt sq 0) as [c|]; [|left; reflexivity].
  unfold indexOf.
  destruct (indexOfFrom_range N.eqb c (displayCols orientation) 0) as [H|H].
  - left. exact H.
  - right.
    assert (Hlen : List.length (displayCols orientation) = 8%nat)
      by (destruct orientation; reflexivity).
    rewrite Hlen in H. lia.
Qed.

(** The offset is computed exactly when both rows are found; the columns
    are not looked at. *)
Lemma offsetOf_rows (orientation : Chess.Color) (from to : jsstring) :
  offsetOf orientation from to =
  if (App.rowIndex orientation from =? -1) || (App.rowIndex orientation to =? -1)
  then None
  else Some {| App.x := App.colIndex orientation from - App.colIndex orientation to;
               App.y := App.rowIndex orientation from - App.rowIndex orientation to |}.
Proof.
  unfold offsetOf.
  destruct (App.rowIndex orientation from =? -1), (App.rowIndex orientation to =? -1);
    reflexivity.
Qed.

(** Both endpoints found: the signed vector of column and row indices. *)
Lemma offsetOf_located (orientation : Chess.Color) (from to : jsstring) :
  App.rowIndex orientation from <> -1 ->
  App.rowIndex orientation to <> -1 ->
  offsetOf orientation from to =
  Some {| App.x := App.colIndex orientation from - App.colIndex orientation to;
          App.y := App.rowIndex orientation from - App.rowIndex orientation to |}.
Proof.
  intros Hf Ht. rewrite offsetOf_rows.
  apply Z.eqb_neq in Hf. apply Z.eqb_neq in Ht. rewrite Hf, Ht. reflexivity.
Qed.

(** The guard of line 462 looks at the rows only.  Were the from-square
    "i2", whose column is found under neither orientation, the offset of
    i2-e4 would be computed with -1 standing for the missing column index.
    No last move of the session is such a square: the session records the
    squares of the engine's moves. *)
Example offset_computed_with_missing_column :
  App.colIndex Chess.White (lit "i2") = -1 /\
  App.colIndex Chess.Black (lit "i2") = -1 /\
  offsetOf Chess.White (lit "i2") (lit "e4") = Some {| App.x := -5; App.y := 2 |} /\
  offsetOf Chess.Black (lit "i2") (lit "e4") = Some {| App.x := -4; App.y := -2 |} /\
  animationOffset Chess.White
    (Some {| lm_from := lit "i2"; lm_to := lit "e4"; lm_flags := Some (lit "n") |})
    (lit "e4") = Some {| App.x := -5; App.y := 2 |}.
Proof. repeat split; vm_compute; reflexivity. Qed.

(** ** The session *)

Lemma Color_eqb_eq (a b : Chess.Color) : Chess.Color_eqb a b = true <-> a = b.
Proof. destruct a, b; cbn; split; congruence. Qed.

Lemma Square_eqb_eq (a b : Chess.Square) : Chess.Square_eqb a b = true <-> a = b.
Proof.
  destruct a as [fa ra], b as [fb rb]. unfold Chess.Square_eqb. cbn.
  rewrite andb_true_iff, !Z.eqb_eq. split.
  - intros [Hf Hr]. destruct fa, fb; try discriminate Hf; destruct ra, rb; try discriminate Hr; reflexivity.
  - intros H. injection H as -> ->. split; reflexivity.
Qed.

Lemma Square_eqb_refl (a : Chess.Square) : Chess.Square_eqb a a = true.
Proof. apply Square_eqb_eq. reflexivity. Qed.

Lemma Square_eqb_neq (a b : Chess.Square) : a <> b -> Chess.Square_eqb a b = false.
Proof.
  intros H. destruct (Chess.Square_eqb a b) eqn:Heq; [|reflexivity].
  apply Square_eqb_eq in Heq. contradiction.
Qed.

Section SessionProperties.

Context {E : Chess.Engine}.

(** *** The timeout effect *)

Lemma timeoutEffect_when_over (s : State) :
  gameOver s = true -> runHandler timeoutEffect s = (s, []).
Proof.
  intros H. unfold_handlers. cbn. rewrite H. reflexivity.
Qed.

Lemma timeoutEffect_when_running (s : State) :
  0 < whiteTime s -> 0 < blackTime s -> runHandler timeoutEffect s = (s, []).
Proof.
  intros Hw Hb. unfold_handlers. cbn.
  destruct (gameOver s); [reflexivity|].
  apply Z.leb_gt in Hw. apply Z.leb_gt in Hb. rewrite Hw, Hb. reflexivity.
Qed.

Lemma timeoutEffect_settles (s : State) :
  clocksRunning (fst (runHandler timeoutEffect s)).
Proof.
  unfold clocksRunning. unfold_handlers. run_cases; intros H; try discriminate.
  all: try congruence.
  split; apply Z.leb_gt; assumption.
Qed.

Lemma step_settles (s : State) (e : Event) : clocksRunning (step s e).
Proof.
  unfold step, dispatch.
  destruct (runHandler (handlerOf e) s) as [s1 out1].
  pose proof (timeoutEffect_settles s1) as H.
  destruct (runHandler timeoutEffect s1) as [s2 out2]. exact H.
Qed.

(** Run again on the state it produced, the effect does nothing. *)
Lemma timeoutEffect_idempotent (s : State) :
  runHandler timeoutEffect (fst (runHandler timeoutEffect s))
  = (fst (runHandler timeoutEffect s), []).
Proof.
  pose proof (timeoutEffect_settles s) as H.
  destruct (gameOver (fst (runHandler timeoutEffect s))) eqn:Hover.
  - apply timeoutEffect_when_over. exact Hover.
  - destruct (H Hover). apply timeoutEffect_when_running; assumption.
Qed.

Lemma minutes_positive (t : TimeControl) : 0 < minutes t * 60.
Proof. destruct t; cbn; lia. Qed.

Lemma reachable_clocksRunning (s : State) : reachable s -> clocksRunning s.
Proof.
  intros H. destruct H as [cfg|s e _].
  - intros _. cbn. split; apply minutes_positive.
  - apply step_settles.
Qed.

(** In a state of the session the timeout effect has nothing left to do. *)
Lemma reachable_settled (s : State) :
  reachable s -> runHandler timeoutEffect s = (s, []).
Proof.
  intros H. apply reachable_clocksRunning in H.
  destruct (gameOver s) eqn:Hover.
  - apply timeoutEffect_when_over. exact Hover.
  - destruct (H Hover). apply timeoutEffect_when_running; assumption.
Qed.

Lemma reachable_run (s : State) (es : list Event) :
  reachable s -> reachable (run s es).
Proof.
  revert s. induction es as [|e es IH]; intros s H; cbn.
  - exact H.
  - apply IH. constructor. exact H.
Qed.

Lemma run_app (s : State) (es fs : list Event) :
  run s (es ++ fs) = run (run s es) fs.
Proof. unfold run. apply fold_left_app. Qed.

(** *** The turn variable *)

Lemma step_turnInSync (s : State) (e : Event) :
  turnInSync s -> turnInSync (step s e).
Proof.
  unfold turnInSync. intros H.
  destruct e; unfold_handlers; run_cases; congruence.
Qed.

Lemma reachable_turnInSync {L : Chess.Laws E} (s : State) :
  reachable s -> turnInSync s.
Proof.
  induction 1 as [cfg|s e _ IH].
  - unfold turnInSync. cbn. symmetry. apply Chess.newGame_turn.
  - apply step_turnInSync. exact IH.
Qed.

(** *** The selection *)

Lemma step_selectionValid (s : State) (e : Event) :
  selectionValid s -> selectionValid (step s e).
Proof.
  unfold selectionValid. intros H.
  destruct e; unfold_handlers; run_cases; try exact I; try assumption.
  all: try (rewrite ?Heqo in H; cbn in H; assumption).
  all: try (eexists; split; [eassumption | apply Color_eqb_eq; assumption]).
Qed.

Lemma reachable_selectionValid (s : State) : reachable s -> selectionValid s.
Proof.
  induction 1 as [cfg|s e _ IH].
  - exact I.
  - apply step_selectionValid. exact IH.
Qed.

(** *** Terminal outcomes *)

Lemma terminal_kept (s : State) (e : Event) :
  e <> ResetClick -> gameOver s = true ->
  gameOver (step s e) = true /\ gameStatus (step s e) = gameStatus s.
Proof.
  intros He Hover.
  destruct e; try congruence; unfold_handlers; cbn; rewrite ?Hover, ?orb_true_r;
    run_cases; split; congruence.
Qed.

Lemma reset_outcome {L : Chess.Laws E} (s : State) :
  outcome (step s ResetClick) = None \/ outcome (step s ResetClick) = outcome s.
Proof.
  pose proof (minutes_positive (timeControl s)) as Hpos.
  apply Z.leb_gt in Hpos.
  unfold outcome. unfold_handlers. cbn.
  rewrite Chess.reset_newGame, Chess.newGame_isGameOver, Chess.newGame_history.
  run_cases; try congruence; try (left; reflexivity); try (right; reflexivity).
Qed.

(** With both clocks above zero in the render where it is pressed, reset
    brings back the state of a first render under the current settings. *)
Lemma reset_restores_initial_state {L : Chess.Laws E} (s : State) :
  0 < whiteTime s -> 0 < blackTime s ->
  freshOf (step s ResetClick) =
  freshOf (initialState {| saved_timeControl := timeControl s;
                           saved_whiteName := whiteName s;
                           saved_blackName := blackName s |}).
Proof.
  intros Hw Hb.
  pose proof (minutes_positive (timeControl s)) as Hpos.
  apply Z.leb_gt in Hpos. apply Z.ltb_lt in Hw. apply Z.ltb_lt in Hb.
  unfold freshOf. unfold_handlers. cbn.
  rewrite Chess.reset_newGame, Chess.newGame_isGameOver, Chess.newGame_history,
    Chess.newGame_turn.
  cbn. rewrite Hw, Hb. cbn. rewrite Hpos. cbn. reflexivity.
Qed.

(** With a clock at zero in the render where it is pressed, reset leaves a
    terminal outcome in place. *)
Lemma reset_keeps_timeout {L : Chess.Laws E} (s : State) :
  gameOver s = true ->
  whiteTime s <= 0 \/ blackTime s <= 0 ->
  outcome (step s ResetClick) = outcome s /\
  whiteTime (step s ResetClick) = minutes (timeControl s) * 60 /\
  blackTime (step s ResetClick) = minutes (timeControl s) * 60.
Proof.
  intros Hover Hzero.
  assert (Hguard : (0 <? whiteTime s) && (0 <? blackTime s) = false).
  { apply andb_false_iff. destruct Hzero; [left | right]; apply Z.ltb_ge; assumption. }
  unfold outcome. unfold_handlers. cbn.
  rewrite Chess.reset_newGame, Chess.newGame_isGameOver, Chess.newGame_history.
  cbn. rewrite Hguard. cbn. rewrite Hover. cbn. rewrite Hover. repeat split.
Qed.

(** C4: an operation other than reset leaves a terminal outcome as it is,
    so the outcome changes only from active to terminal, or from terminal
    back to active by reset.  It holds in every state, reachable or not;
    [selectSquare], [undo], [tick] and the completion of a suggestion are
    among the events. *)
Theorem outcome_is_sticky {L : Chess.Laws E} (s : State) (e : Event) :
  (e <> ResetClick -> outcome s <> None -> outcome (step s e) = outcome s) /\
  (outcome (step s e) = outcome s \/
   (outcome s = None /\ outcome (step s e) <> None) \/
   (outcome s <> None /\ e = ResetClick /\ outcome (step s e) = None)).
Proof.
  assert (Hkeep : e <> ResetClick -> outcome s <> None ->
                  outcome (step s e) = outcome s).
  { intros He Hterm. unfold outcome in *.
    destruct (gameOver s) eqn:Hover; [|congruence].
    destruct (terminal_kept s e He Hover) as [H1 H2]. rewrite H1, H2. reflexivity. }
  split; [exact Hkeep|].
  destruct (outcome s) as [status|] eqn:Hout.
  - destruct e; try (left; apply Hkeep; congruence).
    destruct (reset_outcome s) as [H|H].
    + right. right. repeat split; congruence.
    + left. congruence.
  - destruct (outcome (step s e)) eqn:Hout'.
    + right. left. split; congruence.
    + left. reflexivity.
Qed.

(** *** The clocks *)

(** C3: while the game is active a tick takes one second from the clock of
    the side to move, or leaves it at zero, and leaves the idle side's
    clock alone; a clock that reaches zero ends the game in favour of the
    other side; once the game is over a tick changes neither clock. *)
Theorem tick_runs_the_clock_of_the_side_to_move {L : Chess.Laws E} (s : State) :
  reachable s ->
  let mover := Chess.turn (game s) in
  let s' := step s Tick in
  (gameOver s = false ->
     remaining mover s' =
       (if remaining mover s =? 0 then 0 else remaining mover s - 1) /\
     remaining (opponent mover) s' = remaining (opponent mover) s /\
     (remaining mover s' = 0 ->
        gameOver s' = true /\
        gameStatus s' = displayName (opponent mover) s ++ lit " wins on time!") /\
     (remaining mover s' <> 0 -> gameOver s' = false)) /\
  (gameOver s = true ->
     whiteTime s' = whiteTime s /\ blackTime s' = blackTime s /\
     outcome s' = outcome s).
Proof.
  intros Hreach mover s'.
  pose proof (reachable_turnInSync s Hreach) as Hturn. unfold turnInSync in Hturn.
  pose proof (reachable_clocksRunning s Hreach) as Hclocks.
  subst mover s'. rewrite <- Hturn. split.
  - intros Hover. destruct (Hclocks Hover) as [Hw Hb]. clear Hclocks Hturn.
    unfold remaining, opponent, displayName, outcome.
    unfold_handlers. cbn. rewrite Hover.
    run_cases; Z_of_bools; repeat split; intros; try reflexivity; try congruence;
      exfalso; lia.
  - intros Hover. unfold outcome. unfold_handlers. cbn. rewrite Hover. cbn.
    rewrite Hover. cbn. rewrite Hover. repeat split.
Qed.

(** *** Square clicks *)

(** C5: when a piece is selected and the engine rejects the move from the
    selection to the clicked square, the click leaves position, clocks and
    history as they were, issues no call, and selects the clicked square
    afresh: the square if it holds a piece of the side to move, nothing
    otherwise.  A move is attempted only while the game is active and the
    clicked square is not the selected one. *)
Theorem rejected_move_reselects (s : State) (selected square : Chess.Square) (rnd : Q) :
  gameOver s = false ->
  selectedSquare s = Some selected ->
  selected <> square ->
  Chess.move (game s)
    {| Chess.a_from := selected; Chess.a_to := square; Chess.a_promotion := Chess.Queen |}
    = None ->
  let s' := step s (SquareClick square rnd) in
  game s' = game s /\ fen s' = fen s /\ turn s' = turn s /\
  whiteTime s' = whiteTime s /\ blackTime s' = blackTime s /\
  historyCount s' = historyCount s /\ lastMove s' = lastMove s /\
  selectedSquare s' = freshSelection s square /\
  snd (dispatch s (SquareClick square rnd)) = [].
Proof.
  intros Hover Hsel Hneq Hmove s'. subst s'.
  apply Square_eqb_neq in Hneq.
  unfold freshSelection. unfold_handlers. cbn.
  rewrite Hover, Hsel. cbn. rewrite Hneq, Hmove.
  run_cases; repeat split; congruence.
Qed.

(** C6, amended: in every state of the session the selection is empty or a
    square holding a piece of the side to move; a click changes the
    position only by a move the engine accepted, from the selection to the
    clicked square, while the game is active; and clicking the selected
    square clears the selection while the game is active, and is ignored,
    the selection staying, once it is over. *)
Theorem selection_discipline (s : State) :
  reachable s ->
  selectionValid s /\
  (forall square rnd,
     game (step s (SquareClick square rnd)) <> game s ->
     gameOver s = false /\
     exists selected moveResult,
       selectedSquare s = Some selected /\
       Chess.move (game s)
         {| Chess.a_from := selected; Chess.a_to := square;
            Chess.a_promotion := Chess.Queen |}
         = Some (game (step s (SquareClick square rnd)), moveResult)) /\
  (forall square rnd,
     selectedSquare s = Some square ->
     selectedSquare (step s (SquareClick square rnd)) =
       if gameOver s then Some square else None).
Proof.
  intros Hreach. split; [apply reachable_selectionValid; exact Hreach|]. split.
  - intros square rnd. unfold_handlers. run_cases; intros Hne; try congruence.
    all: split; [reflexivity|]; do 2 eexists; split; [reflexivity | eassumption].
  - intros square rnd Hsel. unfold_handlers. cbn.
    destruct (gameOver s) eqn:Hover; cbn.
    + rewrite Hover. exact Hsel.
    + rewrite Hsel. cbn. rewrite Square_eqb_refl. run_cases; congruence.
Qed.

(** *** Suggestions *)

(** C7: the request for a suggestion does nothing when the game is over
    ([handleSuggestMove] returns at once) and nothing while a request is
    outstanding (the Hint button, its only caller, is disabled): no call
    is issued and the state stays as it is. *)
Theorem requestSuggestion_noop (s : State) :
  reachable s ->
  gameOver s = true \/ suggestionLoading s = true ->
  runHandler hintButton s = (s, []) /\
  dispatch s HintClick = (s, []) /\
  (gameOver s = true -> runHandler handleSuggestMove s = (s, [])).
Proof.
  intros Hreach Hcond.
  assert (H : runHandler hintButton s = (s, [])).
  { unfold_handlers. cbn. destruct Hcond as [-> | ->]; rewrite ?orb_true_r; reflexivity. }
  split; [exact H|]. split.
  - unfold dispatch. cbn [handlerOf]. rewrite H.
    rewrite (reachable_settled s Hreach). reflexivity.
  - intros Hover. unfold_handlers. cbn. rewrite Hover. reflexivity.
Qed.

(** [handleSuggestMove] itself does not look at [suggestionLoading]: run
    while the game is active it issues a call whether or not one is
    outstanding.  The Hint button is what holds a second request back. *)
Remark handleSuggestMove_unguarded (s : State) :
  gameOver s = false ->
  snd (runHandler handleSuggestMove s) =
    [CallAnalyzeBoard (Chess.fen (game s)) (Chess.turn (game s))].
Proof.
  intros Hover. unfold_handlers. cbn. rewrite Hover. reflexivity.
Qed.

Lemma step_keeps_no_suggestion (s : State) (e : Event) :
  isResolution e = false -> suggestedMove s = None -> suggestedMove (step s e) = None.
Proof.
  intros He Hs. destruct e; try discriminate He; unfold_handlers; run_cases; congruence.
Qed.

Lemma run_keeps_no_suggestion (s : State) (es : list Event) :
  forallb (fun e => negb (isResolution e)) es = true ->
  suggestedMove s = None -> suggestedMove (run s es) = None.
Proof.
  revert s. induction es as [|e es IH]; intros s Hes Hs; cbn in *.
  - exact Hs.
  - apply andb_true_iff in Hes as [He Hes]. apply negb_true_iff in He.
    apply IH; [exact Hes|]. apply step_keeps_no_suggestion; assumption.
Qed.

Lemma hint_issued (s : State) :
  gameOver s = false -> suggestionLoading s = false ->
  suggestedMove (step s HintClick) = None /\
  suggestionLoading (step s HintClick) = true /\
  snd (runHandler hintButton s) =
    [CallAnalyzeBoard (Chess.fen (game s)) (Chess.turn (game s))].
Proof.
  intros Hover Hload. unfold_handlers. cbn. rewrite Hover, Hload. cbn.
  run_cases; repeat split; congruence.
Qed.

(** C1, amended: a suggestion is requested, and before it resolves other
    events arrive, among them a click that plays a move.  When it
    resolves, the recommendation is the move of the position then current
    whose notation is the returned one, and it is absent if the analysis
    returned no notation or none of a move legal in that position.  No
    version is compared: a notation computed for the earlier position is
    shown when it also names a legal move of the later one. *)
Theorem suggestion_matched_against_live_position
    (s : State) (before after : list Event) (square : Chess.Square) (rnd : Q)
    (result : AnalysisResult) :
  gameOver s = false ->
  suggestionLoading s = false ->
  forallb (fun e => negb (isResolution e)) (before ++ after) = true ->
  let played := run (step s HintClick) before in
  let current := run (step played (SquareClick square rnd)) after in
  game (step played (SquareClick square rnd)) <> game played ->
  suggestedMove (step current (SuggestionResolved result)) =
    match bestMoveObj (game current) result with
    | Some m => Some {| sg_from := Chess.squareName (Chess.from m);
                        sg_to := Chess.squareName (Chess.to m) |}
    | None => None
    end.
Proof.
  intros Hover Hload Hes played current _.
  rewrite forallb_app in Hes. apply andb_true_iff in Hes as [Hb Ha].
  assert (Hnone : suggestedMove current = None).
  { subst current played. apply run_keeps_no_suggestion; [exact Ha|].
    apply step_keeps_no_suggestion; [reflexivity|].
    apply run_keeps_no_suggestion; [exact Hb|].
    apply hint_issued; assumption. }
  generalize dependent current. intros current Hnone.
  unfold_handlers. cbn. run_cases; congruence.
Qed.

End SessionProperties.

(** ** The session on [ToyChess] *)

Lemma ToyChess_laws : Chess.Laws ToyChess.engine.
Proof. constructor; intros; reflexivity. Qed.

Lemma reachable_opening : reachable Sample.opening.
Proof. apply reachable_initial. Qed.

Lemma reachable_twoKnights : reachable Sample.twoKnights.
Proof. unfold Sample.twoKnights. apply reachable_run, reachable_opening. Qed.

Lemma reachable_flagged : reachable Sample.flagged.
Proof. unfold Sample.flagged. apply reachable_run, reachable_opening. Qed.

(** The last second of White's minute: the tick brings the clock to zero
    and Black wins on time. *)
Lemma tick_runs_the_clock_of_the_side_to_move_witness :
  let s := run Sample.opening (repeat Tick 59) in
  reachable s /\ gameOver s = false /\
  whiteTime (step s Tick) = 0 /\
  blackTime (step s Tick) = 60 /\
  gameOver (step s Tick) = true /\
  gameStatus (step s Tick) = lit "Black wins on time!".
Proof.
  intros s.
  assert (Hreach : reachable s) by (apply reachable_run, reachable_opening).
  assert (Hover : gameOver s = false) by (vm_compute; reflexivity).
  destruct (proj1 (tick_runs_the_clock_of_the_side_to_move (L := ToyChess_laws) s Hreach) Hover)
    as [Hmover [Hidle [Hzero _]]].
  assert (H0 : whiteTime (step s Tick) = 0) by exact Hmover.
  destruct (Hzero H0) as [Hend Hstatus].
  exact (conj Hreach (conj Hover (conj H0 (conj Hidle (conj Hend Hstatus))))).
Defined.

(** White has lost on time with a pawn selected; a later click on a square
    does not touch the outcome. *)
Lemma outcome_is_sticky_witness :
  SquareClick Sample.e2 0 <> ResetClick /\
  outcome Sample.flagged = Some (lit "Black wins on time!") /\
  outcome (step Sample.flagged (SquareClick Sample.e2 0)) = outcome Sample.flagged.
Proof.
  assert (He : SquareClick Sample.e2 0 <> ResetClick) by discriminate.
  assert (Hout : outcome Sample.flagged = Some (lit "Black wins on time!"))
    by (vm_compute; reflexivity).
  split; [exact He|]. split; [exact Hout|].
  apply (proj1 (outcome_is_sticky (L := ToyChess_laws) Sample.flagged (SquareClick Sample.e2 0))).
  - exact He.
  - rewrite Hout. discriminate.
Defined.

(** With the pawn on e2 selected, a click on g1: the pawn cannot go there,
    and the knight on g1 becomes the selection. *)
Lemma rejected_move_reselects_witness :
  let s := step Sample.opening (SquareClick Sample.e2 0) in
  gameOver s = false /\
  selectedSquare s = Some Sample.e2 /\
  game (step s (SquareClick Sample.g1 0)) = game s /\
  selectedSquare (step s (SquareClick Sample.g1 0)) = Some Sample.g1.
Proof.
  intros s.
  assert (Hover : gameOver s = false) by (vm_compute; reflexivity).
  assert (Hsel : selectedSquare s = Some Sample.e2) by (vm_compute; reflexivity).
  assert (Hneq : Sample.e2 <> Sample.g1) by discriminate.
  assert (Hmove : Chess.move (game s)
                    {| Chess.a_from := Sample.e2; Chess.a_to := Sample.g1;
                       Chess.a_promotion := Chess.Queen |} = None)
    by (vm_compute; reflexivity).
  destruct (rejected_move_reselects s Sample.e2 Sample.g1 0 Hover Hsel Hneq Hmove)
    as [Hgame [_ [_ [_ [_ [_ [_ [Hfresh _]]]]]]]].
  split; [exact Hover|]. split; [exact Hsel|]. split; [exact Hgame|].
  rewrite Hfresh. vm_compute. reflexivity.
Defined.

(** C6, as stated: clicking the selected square always clears the
    selection.  White selects the pawn on e2 and lets the minute run out;
    the game is over on time with e2 still selected, and a click on e2
    leaves it selected. *)
Lemma click_on_selection_ignored_after_timeout :
  reachable Sample.flagged /\
  gameOver Sample.flagged = true /\
  selectedSquare Sample.flagged = Some Sample.e2 /\
  selectedSquare (step Sample.flagged (SquareClick Sample.e2 0)) = Some Sample.e2 /\
  selectedSquare (step Sample.flagged (SquareClick Sample.e2 0)) <> None.
Proof.
  split; [exact reachable_flagged|].
  split_all; vm_compute; (reflexivity || discriminate).
Qed.

Lemma selection_discipline_witness :
  reachable Sample.flagged /\
  selectedSquare Sample.flagged = Some Sample.e2 /\
  selectedSquare (step Sample.flagged (SquareClick Sample.e2 0)) = Some Sample.e2.
Proof.
  assert (Hsel : selectedSquare Sample.flagged = Some Sample.e2)
    by (vm_compute; reflexivity).
  split; [exact reachable_flagged|]. split; [exact Hsel|].
  exact (proj2 (proj2 (selection_discipline Sample.flagged reachable_flagged))
           Sample.e2 0%Q Hsel).
Defined.

(** A second press of Hint while the first request is outstanding. *)
Lemma requestSuggestion_noop_witness :
  let s := step Sample.opening HintClick in
  reachable s /\ suggestionLoading s = true /\ dispatch s HintClick = (s, []).
Proof.
  intros s.
  assert (Hreach : reachable s) by (apply reachable_step, reachable_opening).
  assert (Hload : suggestionLoading s = true) by (vm_compute; reflexivity).
  split; [exact Hreach|]. split; [exact Hload|].
  apply (requestSuggestion_noop s Hreach (or_intror Hload)).
Defined.

(** C1, as stated: the recommendation stays absent when a move is played
    before the suggestion resolves.  After 1. Nf3 Nc6 White asks for a
    hint; the analysis of that position recommends Nd4, a legal move of
    White's knight on f3.  Before it arrives White plays a2-a3.  When it
    arrives Black is to move, Nd4 is a legal move of Black's knight on c6,
    and the recommendation becomes c6-d4. *)
Lemma stale_suggestion_is_shown :
  let s := Sample.twoKnights in
  let played := step (step s HintClick) (SquareClick Sample.a2 0) in
  let moved := step played (SquareClick Sample.a3 0) in
  reachable s /\
  snd (dispatch s HintClick) = [CallAnalyzeBoard (Chess.fen (game s)) Chess.White] /\
  option_map (fun m => (Chess.from m, Chess.to m)) (bestMoveObj (game s) Sample.knightToD4)
    = Some (Sample.f3, {| Chess.file := Chess.Fd; Chess.rank := Chess.R4 |}) /\
  game moved <> game played /\
  Chess.turn (game moved) = Chess.Black /\
  suggestedMove (step moved (SuggestionResolved Sample.knightToD4))
    = Some {| sg_from := lit "c6"; sg_to := lit "d4" |} /\
  suggestedMove (step moved (SuggestionResolved Sample.knightToD4)) <> None.
Proof.
  split; [exact reachable_twoKnights|].
  split_all; vm_compute; (reflexivity || discriminate).
Qed.

Lemma suggestion_matched_against_live_position_witness :
  let s := Sample.twoKnights in
  let played := run (step s HintClick) [SquareClick Sample.a2 0] in
  let current := run (step played (SquareClick Sample.a3 0)) [] in
  gameOver s = false /\ suggestionLoading s = false /\
  game (step played (SquareClick Sample.a3 0)) <> game played /\
  suggestedMove (step current (SuggestionResolved Sample.knightToD4))
    = Some {| sg_from := lit "c6"; sg_to := lit "d4" |}.
Proof.
  intros s played current.
  assert (Hover : gameOver s = false) by (vm_compute; reflexivity).
  assert (Hload : suggestionLoading s = false) by (vm_compute; reflexivity).
  assert (Hside : ToyChess.side (game (step played (SquareClick Sample.a3 0)))
                  <> ToyChess.side (game played))
    by (vm_compute; discriminate).
  assert (Hmoved : game (step played (SquareClick Sample.a3 0)) <> game played)
    by (intros H; apply Hside; rewrite H; reflexivity).
  split; [exact Hover|]. split; [exact Hload|]. split; [exact Hmoved|].
  pose proof (suggestion_matched_against_live_position s [SquareClick Sample.a2 0] []
                Sample.a3 0 Sample.knightToD4 Hover Hload eq_refl Hmoved) as H.
  cbv zeta in H. subst current played. rewrite H. vm_compute. reflexivity.
Defined.

(** ** Reset *)

(** C2: White loses on time and the game is reset.  The position, the
    history and both clocks are those of a new game, but the game is still
    over and the status still reads "Black wins on time!": the state is not
    the initial one.  [updateGameState], called by [resetGame], decides
    whether to clear the outcome from the clocks of the render in which the
    button was pressed, where White's clock is still zero.  A second reset
    does restore the initial state. *)
Theorem reset_after_timeout_stays_over :
  let s := Sample.flagged in
  let s' := step s ResetClick in
  reachable s /\
  outcome s = Some (lit "Black wins on time!") /\
  whiteTime s = 0 /\
  game s' = Chess.newGame /\ historyCount s' = 0%nat /\
  whiteTime s' = 60 /\ blackTime s' = 60 /\
  outcome s' = Some (lit "Black wins on time!") /\
  freshOf s' <> freshOf Sample.opening /\
  freshOf (step s' ResetClick) = freshOf Sample.opening.
Proof.
  split; [exact reachable_flagged|].
  split_all; vm_compute; (reflexivity || discriminate).
Qed.

(** With both clocks running, as after a checkmate, reset does restore the
    first render. *)
Example reset_after_checkmate :
  outcome Sample.foolsMate = Some (lit "Checkmate! Black wins.") /\
  historyCount Sample.foolsMate = 4%nat /\
  freshOf (step Sample.foolsMate ResetClick) = freshOf Sample.opening.
Proof. split_all; vm_compute; reflexivity. Qed.

(** ** Scenarios *)

(** From the starting position, e2 then e4: the pawn advances, Black is to
    move, one move is recorded and the game goes on. *)
Example pawn_to_e4 :
  let s := run Sample.opening
             [SquareClick Sample.e2 0;
              SquareClick {| Chess.file := Chess.Fe; Chess.rank := Chess.R4 |} 0] in
  fen s = lit "rnbqkbnr/pppppppp/8/8/4P3/8/PPPP1PPP/RNBQKBNR b" /\
  turn s = Chess.Black /\ historyCount s = 1%nat /\
  lastMove s = Some {| lm_from := lit "e2"; lm_to := lit "e4"; lm_flags := Some (lit "b") |} /\
  outcome s = None /\ selectedSquare s = None.
Proof. intros s. split_all; vm_compute; reflexivity. Qed.

(** Sixty seconds a side and sixty-one ticks with White to move: White's
    clock is at zero and Black has won on time. *)
Example sixty_one_ticks :
  let s := run Sample.opening (repeat Tick 61) in
  whiteTime s = 0 /\ blackTime s = 60 /\
  outcome s = Some (lit "Black wins on time!").
Proof. intros s. split_all; vm_compute; reflexivity. Qed.

(** The Takeback button is disabled once the game is over; [undoMove]
    itself, run on the mated position, would take the mate back and put
    the game in play again. *)
Example undoMove_unguarded :
  outcome Sample.foolsMate = Some (lit "Checkmate! Black wins.") /\
  runHandler takebackButton Sample.foolsMate = (Sample.foolsMate, []) /\
  outcome (fst (runHandler undoMove Sample.foolsMate)) = None /\
  historyCount (fst (runHandler undoMove Sample.foolsMate)) = 3%nat.
Proof.
  split; [vm_compute; reflexivity|]. split.
  - unfold takebackButton, runHandler, bind, rendered, ret.
    replace (gameOver Sample.foolsMate) with true by (vm_compute; reflexivity).
    rewrite orb_true_r. reflexivity.
  - split; vm_compute; reflexivity.
Qed.

(* ================================================================= *)
(** * More properties of the code *)


(** ** More of the session *)

Section MoreSessionProperties.

Context {E : Chess.Engine}.

(** *** The state variables that copy the engine *)

Lemma step_mirrorsInSync (s : State) (e : Event) :
  mirrorsInSync s -> mirrorsInSync (step s e).
Proof.
  intros Hs. destruct e; step_cases; try exact Hs.
  all: destruct Hs as (Hfen & Hturn & Hcheck & Hcount & Hlast).
  all: unfold mirrorsInSync, lastMoveOf; cbn; rewrite_lastOf.
  all: repeat split; congruence.
Qed.

Lemma reachable_mirrorsInSync {L : Chess.Laws E} (s : State) :
  reachable s -> mirrorsInSync s.
Proof.
  induction 1 as [cfg|s e _ IH].
  - unfold mirrorsInSync, lastMoveOf. cbn.
    rewrite Chess.newGame_turn, Chess.newGame_inCheck, Chess.newGame_history.
    repeat split.
  - apply step_mirrorsInSync. exact IH.
Qed.

(** X1: in every state of the session the position text, the side to
    move, the check flag, the number of moves and the last move that the
    component holds are those of the engine. *)
Theorem mirrors_follow_the_engine {L : Chess.Laws E} (s : State) :
  reachable s ->
  fen s = Chess.fen (game s) /\
  turn s = Chess.turn (game s) /\
  isCheck s = Chess.inCheck (game s) /\
  historyCount s = List.length (Chess.history (game s)) /\
  lastMove s = match lastOf (Chess.history (game s)) with
               | Some last => Some {| lm_from := Chess.squareName (Chess.from last);
                                      lm_to := Chess.squareName (Chess.to last);
                                      lm_flags := Some (Chess.flags last) |}
               | None => None
               end.
Proof.
  intros Hreach.
  destruct (reachable_mirrorsInSync s Hreach) as (Hfen & Hturn & Hcheck & Hcount & Hlast).
  unfold lastMoveOf in Hlast.
  split_all; assumption.
Qed.

(** *** The active game *)

Lemma step_activeInvariant (s : State) (e : Event) :
  activeInvariant s -> activeInvariant (step s e).
Proof.
  unfold activeInvariant. intros Hs.
  destruct e; step_cases; intros Hover; try discriminate Hover.
  all: Z_of_bools.
  all: try (destruct (Hs ltac:(congruence)) as (H1 & H2 & H3 & H4)).
  all: repeat split; (congruence || lia).
Qed.

Lemma reachable_activeInvariant {L : Chess.Laws E} (s : State) :
  reachable s -> activeInvariant s.
Proof.
  induction 1 as [cfg|s e _ IH].
  - intros _. cbn. rewrite Chess.newGame_isGameOver.
    pose proof (minutes_positive (saved_timeControl cfg)). repeat split; assumption.
  - apply step_activeInvariant. exact IH.
Qed.

(** X2: in every state of the session, while the game is active the
    status text is empty, the engine's game is not over and both clocks
    are above zero; so once the engine reports the end of the game, or a
    clock is at zero, the game is over for the session as well. *)
Theorem active_game_is_in_play {L : Chess.Laws E} (s : State) :
  reachable s ->
  (gameOver s = false ->
   gameStatus s = [] /\ Chess.isGameOver (game s) = false /\
   0 < whiteTime s /\ 0 < blackTime s) /\
  (Chess.isGameOver (game s) = true \/ whiteTime s <= 0 \/ blackTime s <= 0 ->
   gameOver s = true).
Proof.
  intros Hreach. pose proof (reachable_activeInvariant s Hreach) as Hinv.
  split; [exact Hinv|].
  intros Hend. destruct (gameOver s) eqn:Hover; [reflexivity|].
  destruct (Hinv Hover) as (_ & Hengine & Hw & Hb).
  destruct Hend as [Hend | [Hend | Hend]]; [congruence | lia | lia].
Qed.

(** *** Selection and recommendation *)

Lemma step_destinations (s : State) (e : Event) :
  possibleMoves s = destinationsOf (game s) (selectedSquare s) ->
  possibleMoves (step s e) = destinationsOf (game (step s e)) (selectedSquare (step s e)).
Proof.
  intros Hs. destruct e; step_cases; try exact Hs; reflexivity.
Qed.

(** X3: in every state of the session the destinations highlighted on the
    board are the legal destinations, in the live position, of the piece
    on the selected square, and there are none when nothing is selected. *)
Theorem highlighted_destinations_are_legal (s : State) :
  reachable s ->
  possibleMoves s = destinationsOf (game s) (selectedSquare s).
Proof.
  induction 1 as [cfg|s e _ IH].
  - reflexivity.
  - apply step_destinations. exact IH.
Qed.

Lemma bestMoveObj_legal (g : Chess.Game) (result : AnalysisResult) (m : Chess.Move) :
  bestMoveObj g result = Some m ->
  In m (Chess.moves g) /\ bestMove result = Some (Chess.san m).
Proof.
  unfold bestMoveObj. destruct (bestMove result) as [bm|]; [|discriminate].
  destruct (truthy bm); [|discriminate].
  intros H. apply find_some in H as [Hin Heq]. apply JS_eqb_eq in Heq.
  split; [exact Hin | congruence].
Qed.

Lemma step_recommendationLegal (s : State) (e : Event) :
  recommendationLegal s -> recommendationLegal (step s e).
Proof.
  intros Hs. destruct e; step_cases; try exact Hs.
  all: unfold recommendationLegal in *; cbn; try exact Hs; try exact I.
  all: match goal with
       | H : bestMoveObj _ _ = Some ?m |- _ =>
           exists m; split; [exact (proj1 (bestMoveObj_legal _ _ _ H)) | reflexivity]
       end.
Qed.

(** X4: in every state of the session a recommendation on the board is
    the from and to squares of a move that is legal in the live position:
    whatever position it was computed for, it is never shown against a
    position in which it cannot be played. *)
Theorem recommendation_is_playable (s : State) :
  reachable s -> recommendationLegal s.
Proof.
  induction 1 as [cfg|s e _ IH].
  - exact I.
  - apply step_recommendationLegal. exact IH.
Qed.

(** *** The clocks *)

(** X5: only a tick and a reset change a clock.  The takeback in
    particular gives no time back, and neither a move nor a completed
    suggestion costs any. *)
Theorem clocks_change_only_by_tick_and_reset (s : State) (e : Event) :
  touchesClocks e = false ->
  whiteTime (step s e) = whiteTime s /\ blackTime (step s e) = blackTime s.
Proof.
  intros He. destruct e; try discriminate He; step_cases; split; reflexivity.
Qed.

Lemma tick_when_over (s : State) : gameOver s = true -> step s Tick = s.
Proof.
  intros Hover. unfold_handlers. cbn. rewrite Hover. cbn. rewrite Hover. reflexivity.
Qed.

Lemma ticks_when_over (s : State) (n : nat) :
  gameOver s = true -> run s (repeat Tick n) = s.
Proof.
  intros Hover. induction n as [|n IH]; cbn.
  - reflexivity.
  - rewrite tick_when_over by exact Hover. exact IH.
Qed.

(** One tick of an active game in which both clocks are above zero. *)
Lemma tick_when_active (s : State) :
  gameOver s = false -> 0 < whiteTime s -> 0 < blackTime s ->
  let c := turn s in
  let s' := step s Tick in
  remaining c s' = remaining c s - 1 /\
  remaining (opponent c) s' = remaining (opponent c) s /\
  turn s' = turn s /\ game s' = game s /\
  whiteName s' = whiteName s /\ blackName s' = blackName s /\
  (1 < remaining c s -> gameOver s' = false) /\
  (remaining c s = 1 ->
   outcome s' = Some (displayName (opponent c) s ++ lit " wins on time!")).
Proof.
  intros Hover Hw Hb c s'. subst c s'.
  unfold remaining, opponent, displayName.
  step_cases; unfold outcome; cbn; Z_of_bools;
    repeat split; intros; try reflexivity; try congruence; exfalso; lia.
Qed.

Lemma countdown (k : nat) :
  forall s : State,
    gameOver s = false -> 0 < whiteTime s -> 0 < blackTime s ->
    Z.of_nat k < remaining (turn s) s ->
    let s' := run s (repeat Tick k) in
    gameOver s' = false /\ turn s' = turn s /\ game s' = game s /\
    whiteName s' = whiteName s /\ blackName s' = blackName s /\
    remaining (turn s) s' = remaining (turn s) s - Z.of_nat k /\
    remaining (opponent (turn s)) s' = remaining (opponent (turn s)) s.
Proof.
  induction k as [|k IH]; intros s Hover Hw Hb Hk.
  - cbn. repeat split; try assumption; lia.
  - cbn [repeat run fold_left]. fold (run (step s Tick) (repeat Tick k)).
    destruct (tick_when_active s Hover Hw Hb)
      as (Hrem & Hidle & Hturn & Hgame & Hwn & Hbn & Hlive & _).
    assert (Hover' : gameOver (step s Tick) = false) by (apply Hlive; lia).
    destruct (step_settles s Tick Hover') as [Hw' Hb'].
    specialize (IH (step s Tick) Hover' Hw' Hb').
    rewrite Hturn in IH. cbv zeta in IH.
    destruct IH as (H1 & H2 & H3 & H4 & H5 & H6 & H7); [lia|].
    repeat split; try congruence; lia.
Qed.

(** X6: with the side to move unchanged, a clock showing t seconds reaches
    zero after exactly t ticks: before that it shows one second less per
    tick and the game goes on, at the t-th tick the other side wins on
    time, and later ticks change nothing.  The idle clock stands still
    throughout. *)
Theorem clock_runs_out_after_its_seconds {L : Chess.Laws E} (s : State) (k : nat) :
  reachable s ->
  gameOver s = false ->
  let mover := Chess.turn (game s) in
  let t := remaining mover s in
  let s' := run s (repeat Tick k) in
  remaining (opponent mover) s' = remaining (opponent mover) s /\
  (Z.of_nat k < t -> remaining mover s' = t - Z.of_nat k /\ outcome s' = None) /\
  (t <= Z.of_nat k ->
   remaining mover s' = 0 /\
   outcome s' = Some (displayName (opponent mover) s ++ lit " wins on time!")).
Proof.
  intros Hreach Hover mover t s'.
  pose proof (reachable_turnInSync s Hreach) as Hturn. unfold turnInSync in Hturn.
  destruct (reachable_clocksRunning s Hreach Hover) as [Hw Hb].
  subst mover t s'. rewrite <- Hturn.
  assert (Hpos : 0 < remaining (turn s) s) by (unfold remaining; destruct (turn s); assumption).
  assert (Hlive : forall j, Z.of_nat j < remaining (turn s) s ->
            remaining (turn s) (run s (repeat Tick j)) = remaining (turn s) s - Z.of_nat j /\
            remaining (opponent (turn s)) (run s (repeat Tick j))
              = remaining (opponent (turn s)) s /\
            outcome (run s (repeat Tick j)) = None).
  { intros j Hj. destruct (countdown j s Hover Hw Hb Hj) as (H1 & _ & _ & _ & _ & H6 & H7).
    unfold outcome. rewrite H1. repeat split; assumption. }
  assert (Hend : forall j, remaining (turn s) s <= Z.of_nat j ->
            remaining (turn s) (run s (repeat Tick j)) = 0 /\
            remaining (opponent (turn s)) (run s (repeat Tick j))
              = remaining (opponent (turn s)) s /\
            outcome (run s (repeat Tick j))
              = Some (displayName (opponent (turn s)) s ++ lit " wins on time!")).
  { intros j Hj.
    set (n := Z.to_nat (remaining (turn s) s - 1)).
    assert (Hn : Z.of_nat n = remaining (turn s) s - 1) by (unfold n; lia).
    assert (Hsplit : j = (n + 1 + (j - n - 1))%nat) by lia.
    rewrite Hsplit, !repeat_app, !run_app.
    destruct (countdown n s Hover Hw Hb ltac:(lia))
      as (H1 & H2 & H3 & H4 & H5 & H6 & H7).
    cbv zeta in *. set (s1 := run s (repeat Tick n)) in *.
    assert (Hw1 : 0 < whiteTime s1 /\ 0 < blackTime s1).
    { unfold remaining, opponent in *. destruct (turn s); cbv beta iota in *; split; lia. }
    destruct Hw1 as [Hw1 Hb1].
    destruct (tick_when_active s1 H1 Hw1 Hb1)
      as (Hrem & Hidle & _ & _ & _ & _ & _ & Hout).
    rewrite H2 in Hrem, Hidle, Hout.
    assert (Hone : remaining (turn s) s1 = 1) by lia.
    specialize (Hout Hone).
    assert (Hnames : displayName (opponent (turn s)) s1 = displayName (opponent (turn s)) s).
    { unfold displayName, displayWhiteName, displayBlackName.
      rewrite H4, H5. reflexivity. }
    rewrite Hnames in Hout.
    change (run s1 (repeat Tick 1)) with (step s1 Tick).
    assert (Hover2 : gameOver (step s1 Tick) = true).
    { unfold outcome in Hout. destruct (gameOver (step s1 Tick)); [reflexivity|discriminate]. }
    rewrite ticks_when_over by exact Hover2.
    repeat split; [lia | congruence | exact Hout]. }
  split.
  - destruct (Z_lt_le_dec (Z.of_nat k) (remaining (turn s) s)) as [Hlt|Hle].
    + apply (Hlive k Hlt).
    + apply (Hend k Hle).
  - split.
    + intros Hlt. destruct (Hlive k Hlt) as (H1 & _ & H3). split; assumption.
    + intros Hle. destruct (Hend k Hle) as (H1 & _ & H3). split; assumption.
Qed.

End MoreSessionProperties.


Section Calls.

Context {E : Chess.Engine}.

(** *** Calls to the analysis service *)

(** The calls a session event issues: none, the one of a press of Hint, or
    the one of a click that plays a move. *)
Lemma session_calls (s : State) (e : Event) :
  snd (dispatch s e) = [] \/
  (e = HintClick /\ gameOver s = false /\ suggestionLoading s = false /\
   snd (dispatch s e) = [CallAnalyzeBoard (Chess.fen (game s)) (Chess.turn (game s))]) \/
  (exists square rnd selected game' moveResult,
     e = SquareClick square rnd /\ gameOver s = false /\
     selectedSquare s = Some selected /\ selected <> square /\
     Chess.move (game s)
       {| Chess.a_from := selected; Chess.a_to := square;
          Chess.a_promotion := Chess.Queen |} = Some (game', moveResult) /\
     negb (Qle_bool rnd (7 # 10)) = true /\
     snd (dispatch s e) = [CallGetCoachTip (Chess.fen game') (Chess.san moveResult)]).
Proof.
  destruct e; unfold_handlers; run_cases; try (left; reflexivity).
  all: try (right; left; split_all; try reflexivity; cbn in *; congruence).
  all: match goal with
       | Hs : selectedSquare _ = Some ?sel, Hm : Chess.move _ _ = Some (?g, ?m) |- _ =>
           right; right; exists square, rnd, sel, g, m;
           split_all; try reflexivity; try assumption
       end.
  all: intros ->;
    match goal with
    | H : sameSquare _ _ = false |- _ =>
        cbn in H; rewrite Square_eqb_refl in H; discriminate H
    end.
Qed.

(** A press of Hint, enabled, issues its call. *)
Lemma hint_calls (s : State) :
  gameOver s = false -> suggestionLoading s = false ->
  snd (dispatch s HintClick)
  = [CallAnalyzeBoard (Chess.fen (game s)) (Chess.turn (game s))].
Proof.
  intros Hover Hload. unfold_handlers. cbn. rewrite Hover, Hload. cbn.
  run_cases; try reflexivity; congruence.
Qed.

(** A click that plays a move issues the call for the commentary when the
    random number is above 0.7. *)
Lemma move_calls (s : State) (selected square : Chess.Square) (rnd : Q)
    (game' : Chess.Game) (moveResult : Chess.Move) :
  gameOver s = false ->
  selectedSquare s = Some selected ->
  selected <> square ->
  Chess.move (game s)
    {| Chess.a_from := selected; Chess.a_to := square; Chess.a_promotion := Chess.Queen |}
    = Some (game', moveResult) ->
  negb (Qle_bool rnd (7 # 10)) = true ->
  snd (dispatch s (SquareClick square rnd))
  = [CallGetCoachTip (Chess.fen game') (Chess.san moveResult)].
Proof.
  intros Hover Hsel Hneq Hmove Hrnd.
  destruct (session_calls s (SquareClick square rnd))
    as [Hnone | [(Habs & _) | (sq & r & sel & g & m & He & _ & Hs & _ & Hm & _ & Hout)]].
  - exfalso. revert Hnone. unfold_handlers. cbn.
    rewrite Hover, Hsel. cbn. rewrite (Square_eqb_neq _ _ Hneq). cbn.
    rewrite Hmove. cbn. rewrite Hrnd. run_cases; discriminate.
  - discriminate Habs.
  - injection He as <- <-. rewrite Hsel in Hs. injection Hs as <-.
    rewrite Hmove in Hm. injection Hm as <- <-. exact Hout.
Qed.

End Calls.

(** X7: the calls of the component to the analysis service, event by
    event.  A press of Hint while the game is active and no hint is
    outstanding issues one [analyzeBoard] call, and so does a press of
    Coach while the game is active, both for the live position and side to
    move.  A click that plays a move issues one [getCoachTip] call, for the
    position after the move and the move's notation, when the random
    number is above 0.7.  Every event that issues a call is one of these
    three. *)
Theorem calls_issued (E : Chess.Engine) (c : Component.State) (e : Component.Event) :
  let s := Component.session c in
  let out := snd (Component.dispatch c e) in
  let position := CallAnalyzeBoard (Chess.fen (game s)) (Chess.turn (game s)) in
  let plays square selected game' moveResult :=
    gameOver s = false /\ selectedSquare s = Some selected /\ selected <> square /\
    Chess.move (game s)
      {| Chess.a_from := selected; Chess.a_to := square; Chess.a_promotion := Chess.Queen |}
      = Some (game', moveResult) in
  (e = Component.Session HintClick ->
   gameOver s = false -> suggestionLoading s = false -> out = [position]) /\
  (e = Component.Panel Dialog.CoachClick -> gameOver s = false -> out = [position]) /\
  (forall square rnd selected game' moveResult,
     e = Component.Session (SquareClick square rnd) ->
     plays square selected game' moveResult ->
     negb (Qle_bool rnd (7 # 10)) = true ->
     out = [CallGetCoachTip (Chess.fen game') (Chess.san moveResult)]) /\
  (out <> [] ->
   (e = Component.Session HintClick /\ gameOver s = false /\ suggestionLoading s = false) \/
   (e = Component.Panel Dialog.CoachClick /\ gameOver s = false) \/
   (exists square rnd selected game' moveResult,
      e = Component.Session (SquareClick square rnd) /\
      plays square selected game' moveResult /\
      negb (Qle_bool rnd (7 # 10)) = true)).
Proof.
  intros s out position plays. subst s out position plays. cbv beta.
  assert (Hsession : forall e',
            snd (Component.dispatch c (Component.Session e'))
            = snd (dispatch (Component.session c) e')).
  { intros e'. cbn [Component.dispatch].
    destruct (dispatch (Component.session c) e'). reflexivity. }
  split_all.
  - intros -> Hover Hload. rewrite Hsession. apply hint_calls; assumption.
  - intros -> Hover. cbn. unfold Dialog.coachButton. rewrite Hover. reflexivity.
  - intros square rnd selected game' moveResult -> (Hover & Hsel & Hneq & Hmove) Hrnd.
    rewrite Hsession. apply move_calls with (selected := selected); assumption.
  - destruct e as [e'|e'| | | |]; try (intros H; exfalso; apply H; reflexivity).
    + rewrite Hsession. intros Hout.
      destruct (session_calls (Component.session c) e')
        as [Hnone | [(-> & Hover & Hload & _)
                    | (sq & r & sel & g & m & -> & Hover & Hs & Hneq & Hm & Hrnd & _)]].
      * contradiction.
      * left. split_all; [reflexivity | assumption | assumption].
      * right. right. exists sq, r, sel, g, m. split_all; (reflexivity || assumption).
    + destruct e'; try (intros H; exfalso; apply H; reflexivity).
      cbn. unfold Dialog.coachButton.
      destruct (gameOver (Component.session c)) eqn:Hover;
        [intros H; exfalso; apply H; reflexivity|].
      intros _. right. left. split; reflexivity.
Qed.

Section Reset.

Context {E : Chess.Engine}.

(** *** Reset *)

Lemma reset_clocks (s : State) :
  whiteTime (step s ResetClick) = minutes (timeControl s) * 60 /\
  blackTime (step s ResetClick) = minutes (timeControl s) * 60 /\
  timeControl (step s ResetClick) = timeControl s /\
  whiteName (step s ResetClick) = whiteName s /\
  blackName (step s ResetClick) = blackName s.
Proof. step_cases; repeat split. Qed.

(** X8: two resets in a row bring back the state of a first render under
    the current settings, whatever the state before: the position, the
    clocks at the configured time, no history, an active game, nothing
    selected, no recommendation, no commentary. *)
Theorem second_reset_restores_initial_state {L : Chess.Laws E} (s : State) :
  freshOf (run s [ResetClick; ResetClick]) =
  freshOf (initialState {| saved_timeControl := timeControl s;
                           saved_whiteName := whiteName s;
                           saved_blackName := blackName s |}).
Proof.
  cbn [run fold_left].
  destruct (reset_clocks s) as (Hw & Hb & Htc & Hwn & Hbn).
  pose proof (minutes_positive (timeControl s)) as Hpos.
  rewrite reset_restores_initial_state by (rewrite ?Hw, ?Hb; exact Hpos).
  rewrite Htc, Hwn, Hbn. reflexivity.
Qed.

(** *** Takeback *)

(** A click that plays a move: the engine holds the new game, the copies
    follow it, selection and recommendation are cleared. *)
Lemma move_played (s : State) (selected square : Chess.Square) (rnd : Q)
    (game' : Chess.Game) (moveResult : Chess.Move) :
  gameOver s = false ->
  selectedSquare s = Some selected ->
  selected <> square ->
  Chess.move (game s)
    {| Chess.a_from := selected; Chess.a_to := square; Chess.a_promotion := Chess.Queen |}
    = Some (game', moveResult) ->
  0 < whiteTime s -> 0 < blackTime s ->
  let s' := step s (SquareClick square rnd) in
  game s' = game' /\ mirrorsInSync s' /\
  gameOver s' = Chess.isGameOver game' /\
  selectedSquare s' = None /\ possibleMoves s' = [] /\ suggestedMove s' = None /\
  whiteTime s' = whiteTime s /\ blackTime s' = blackTime s.
Proof.
  intros Hover Hsel Hneq Hmove Hw Hb s'. subst s'.
  step_cases; unfold mirrorsInSync, lastMoveOf; cbn; rewrite_lastOf; Z_of_bools.
  all: try (exfalso; lia).
  all: try match goal with
         | H : sameSquare _ _ = true |- _ =>
             exfalso; rewrite ?Hsel in H; cbn in H; apply Square_eqb_eq in H; congruence
         end.
  all: try congruence.
  all: repeat split; congruence.
Qed.

(** The Takeback button, enabled. *)
Lemma move_taken_back (s : State) :
  gameOver s = false ->
  historyCount s <> 0%nat ->
  Chess.history (game s) <> [] ->
  Chess.isGameOver (Chess.undo (game s)) = false ->
  0 < whiteTime s -> 0 < blackTime s ->
  let s' := step s TakebackClick in
  game s' = Chess.undo (game s) /\ mirrorsInSync s' /\
  gameOver s' = false /\
  selectedSquare s' = None /\ possibleMoves s' = [] /\ suggestedMove s' = None /\
  coachTip s' = [] /\
  whiteTime s' = whiteTime s /\ blackTime s' = blackTime s.
Proof.
  intros Hover Hcount Hhist Hlive Hw Hb s'. subst s'.
  step_cases; unfold mirrorsInSync, lastMoveOf; cbn; rewrite_lastOf; Z_of_bools.
  all: try (exfalso; lia).
  all: try congruence.
  all: try match goal with
         | H : (_ =? 0)%nat || _ = true |- _ =>
             exfalso; apply orb_true_iff in H as [H|H];
             [apply Nat.eqb_eq in H; congruence | congruence]
         | H : (Datatypes.length _ =? 0)%nat = true |- _ =>
             exfalso; apply Nat.eqb_eq, length_zero_iff_nil in H; congruence
         end.
  all: repeat split; congruence.
Qed.

(** X9: a move played by a click that does not end the game, taken back
    at once, leaves the position, the side to move, the check flag, the
    move count and the last move as they were before the move; the game
    is active, nothing is selected or recommended, there is no commentary,
    and both clocks stand where they stood. *)
Theorem takeback_undoes_the_move {L : Chess.Laws E} {T : TakebackLaws E}
    (s : State) (selected square : Chess.Square) (rnd : Q)
    (game' : Chess.Game) (moveResult : Chess.Move) :
  reachable s ->
  gameOver s = false ->
  selectedSquare s = Some selected ->
  selected <> square ->
  Chess.move (game s)
    {| Chess.a_from := selected; Chess.a_to := square; Chess.a_promotion := Chess.Queen |}
    = Some (game', moveResult) ->
  Chess.isGameOver game' = false ->
  let s' := run s [SquareClick square rnd; TakebackClick] in
  game s' = game s /\ fen s' = fen s /\ turn s' = turn s /\ isCheck s' = isCheck s /\
  historyCount s' = historyCount s /\ lastMove s' = lastMove s /\
  gameOver s' = false /\ selectedSquare s' = None /\ possibleMoves s' = [] /\
  suggestedMove s' = None /\ coachTip s' = [] /\
  whiteTime s' = whiteTime s /\ blackTime s' = blackTime s.
Proof.
  intros Hreach Hover Hsel Hneq Hmove Hlive s'. subst s'.
  destruct (reachable_mirrorsInSync s Hreach) as (Hfen & Hturn & Hcheck & Hcount & Hlast).
  destruct (reachable_activeInvariant s Hreach Hover) as (_ & Hengine & Hw & Hb).
  pose proof (undo_move _ _ _ _ Hmove) as Hundo.
  pose proof (history_move _ _ _ _ Hmove) as Hhist.
  cbn [run fold_left].
  destruct (move_played s selected square rnd game' moveResult Hover Hsel Hneq Hmove Hw Hb)
    as (Hg1 & (_ & _ & _ & Hc1 & _) & Hover1 & _ & _ & _ & Hw1 & Hb1).
  set (s1 := step s (SquareClick square rnd)) in *.
  assert (Hhist1 : Chess.history (game s1) <> []).
  { rewrite Hg1, Hhist. intros H. apply app_eq_nil in H as [_ H]. discriminate. }
  assert (Hcount1 : historyCount s1 <> 0%nat).
  { rewrite Hc1. intros H. apply length_zero_iff_nil in H. contradiction. }
  assert (Hundo1 : Chess.isGameOver (Chess.undo (game s1)) = false)
    by (rewrite Hg1, Hundo; exact Hengine).
  destruct (move_taken_back s1 ltac:(congruence) Hcount1 Hhist1 Hundo1
              ltac:(lia) ltac:(lia))
    as (Hg2 & (Hfen2 & Hturn2 & Hcheck2 & Hcount2 & Hlast2) & Hover2 & Hsel2 & Hpm2 &
        Hsg2 & Htip2 & Hw2 & Hb2).
  rewrite Hg1, Hundo in Hg2. rewrite Hg2 in Hfen2, Hturn2, Hcheck2, Hcount2, Hlast2.
  repeat split; congruence.
Qed.

End Reset.

(** ** Names in the settings dialog *)

Lemma trim_White : trim (lit "White") = lit "White".
Proof. reflexivity. Qed.

Lemma trim_Black : trim (lit "Black") = lit "Black".
Proof. reflexivity. Qed.

(** X10: when a name field loses focus the stored name is not blank
    afterwards: a name that is not blank stays as it was typed, a blank
    one becomes the default; and the name displayed is the same before
    and after. *)
Theorem blur_keeps_names_visible (E : Chess.Engine) (s : State) :
  let w := step s WhiteNameBlurred in
  let b := step s BlackNameBlurred in
  trim (whiteName w) <> [] /\ trim (blackName b) <> [] /\
  whiteName w = (if truthy (trim (whiteName s)) then whiteName s else lit "White") /\
  blackName b = (if truthy (trim (blackName s)) then blackName s else lit "Black") /\
  displayWhiteName w = displayWhiteName s /\
  displayBlackName b = displayBlackName s.
Proof.
  intros w b. subst w b. split_all.
  - step_cases; first [ match goal with
            | H : truthy ?t = true |- _ => exact (proj1 (truthy_nonempty t) H)
            end
          | vm_compute; discriminate ].
  - step_cases; first [ match goal with
            | H : truthy ?t = true |- _ => exact (proj1 (truthy_nonempty t) H)
            end
          | vm_compute; discriminate ].
  - step_cases; reflexivity.
  - step_cases; reflexivity.
  - step_cases; try reflexivity.
    all: unfold displayWhiteName, displayNameOf, orElse; cbn [whiteName].
    all: match goal with H : truthy _ = false |- _ => rewrite H end; reflexivity.
  - step_cases; try reflexivity.
    all: unfold displayBlackName, displayNameOf, orElse; cbn [blackName].
    all: match goal with H : truthy _ = false |- _ => rewrite H end; reflexivity.
Qed.

(** ** The position analysis *)

Lemma orDefault_truthy (x : option Analysis.Value) (fallback : jsstring) :
  fallback <> [] -> Analysis.truthyValue (Analysis.orDefault x fallback) = true.
Proof.
  intros H. unfold Analysis.orDefault.
  destruct x as [v|]; [destruct (Analysis.truthyValue v) eqn:Hv; [exact Hv|]|];
    cbn [Analysis.truthyValue]; apply truthy_nonempty; exact H.
Qed.

(** An answer of the declared type is its two strings and its best move. *)
Lemma declared_fields (a : Analysis.Answer) (r : AnalysisResult) :
  Analysis.declared a = Some r ->
  Analysis.a_evaluation a = Analysis.VString (evaluation r) /\
  Analysis.a_explanation a = Analysis.VString (explanation r) /\
  Analysis.a_bestMove a = option_map Analysis.VString (bestMove r).
Proof.
  unfold Analysis.declared. destruct a as [ev bm ex]. cbn.
  destruct ev; try discriminate.
  destruct bm as [[| | |bm| |]|]; try discriminate; destruct ex; try discriminate;
    intros [= <-]; repeat split.
Qed.

(** X11: [analyzeBoard] never rejects, whatever the key, the service, the
    text it answers with and the value [JSON.parse] makes of it; the
    evaluation and the explanation of its answer are never [undefined],
    [null], [false], zero or the empty string; and when the answer has the
    declared type, they are strings that are not empty.  (They need not be
    strings: see [untyped_evaluation_passes_through].) *)
Theorem analysis_always_answers (env : Analysis.Env) (fen : jsstring) (turn : Chess.Color) :
  exists answer,
    Analysis.analyzeBoard env fen turn = Fulfilled answer /\
    Analysis.truthyValue (Analysis.a_evaluation answer) = true /\
    Analysis.truthyValue (Analysis.a_explanation answer) = true /\
    (forall result, Analysis.declared answer = Some result ->
                    evaluation result <> [] /\ explanation result <> []).
Proof.
  assert (Hcore : exists answer,
             Analysis.analyzeBoard env fen turn = Fulfilled answer /\
             Analysis.truthyValue (Analysis.a_evaluation answer) = true /\
             Analysis.truthyValue (Analysis.a_explanation answer) = true).
  { unfold Analysis.analyzeBoard.
    destruct (getClient (Analysis.base env)) as [key|];
      [|eexists; split_all; reflexivity].
    destruct (Analysis.generateJSON env key _ _) as [[text|]|];
      try (eexists; split_all; reflexivity).
    destruct (negb (truthy text)); try (eexists; split_all; reflexivity).
    destruct (Analysis.JSON_parse env text) as [parsed|];
      [|eexists; split_all; reflexivity].
    destruct parsed; try (eexists; split_all; reflexivity).
    all: eexists; split_all; [reflexivity | |];
      cbn [Analysis.a_evaluation Analysis.a_explanation];
      apply orDefault_truthy; discriminate. }
  destruct Hcore as (answer & Hres & Hev & Hex).
  exists answer. split_all; try assumption.
  intros result Hd. apply declared_fields in Hd as (Hev' & Hex' & _).
  rewrite Hev' in Hev. rewrite Hex' in Hex.
  split; apply truthy_nonempty; assumption.
Qed.

(** The answer to the text [{"evaluation": []}]: the evaluation is the
    empty array, and the answer is no [AnalysisResult]. *)
Example untyped_evaluation_passes_through :
  exists answer,
    Analysis.analyzeBoard SampleAnalysis.untyped (lit "8/8/8/8/8/8/8/8 w - - 0 1") Chess.White
      = Fulfilled answer /\
    Analysis.a_evaluation answer = Analysis.VArray [] /\
    Analysis.a_bestMove answer = None /\
    Analysis.a_explanation answer = Analysis.VString (lit "No explanation provided.") /\
    Analysis.declared answer = None.
Proof. eexists. split_all; reflexivity. Qed.

(** X12: a best move in the answer of [analyzeBoard], whatever value it
    is, is the [bestMove] member of the object that [JSON.parse] made of a
    non-empty text the service answered with under a key: without a key,
    on a rejected call, on an empty answer, on text that is not JSON or is
    [null] or not an object, the answer has no best move. *)
Theorem best_move_comes_from_the_service
    (env : Analysis.Env) (fen : jsstring) (turn : Chess.Color)
    (answer : Analysis.Answer) (notation : Analysis.Value) :
  Analysis.analyzeBoard env fen turn = Fulfilled answer ->
  Analysis.a_bestMove answer = Some notation ->
  exists key text members,
    getClient (Analysis.base env) = Some key /\
    Analysis.generateJSON env key (lit "gemini-3-flash-preview")
      (Analysis.analysisPrompt fen
         (match turn with Chess.White => lit "White" | Chess.Black => lit "Black" end))
      = Fulfilled (Some text) /\
    text <> [] /\
    Analysis.JSON_parse env text = Some (Analysis.VObject members) /\
    Analysis.property (Analysis.VObject members) "bestMove" = Some notation.
Proof.
  unfold Analysis.analyzeBoard.
  destruct (getClient (Analysis.base env)) as [key|]; [|intros [= <-]; discriminate].
  destruct (Analysis.generateJSON env key _ _) as [[text|]|] eqn:Hgen;
    try (intros [= <-]; discriminate).
  destruct (truthy text) eqn:Ht; cbn [negb]; [|intros [= <-]; discriminate].
  destruct (Analysis.JSON_parse env text) as [parsed|] eqn:Hparse;
    [|intros [= <-]; discriminate].
  destruct parsed as [| | | | |members]; intros [= <-]; try discriminate.
  cbn [Analysis.a_bestMove]. intros Hbm.
  exists key, text, members.
  split_all; [reflexivity | exact Hgen | apply truthy_nonempty; exact Ht
             | exact Hparse | exact Hbm].
Qed.

(** X13: when there is no API key, or the service rejects every call, a
    hint that was asked for ends without a recommendation: the answer of
    [analyzeBoard] is an [AnalysisResult] without a best move, and
    delivering it to the session leaves the recommendation as it was,
    clears the loading flag and touches neither the position nor the
    clocks. *)
Theorem hint_without_service (E : Chess.Engine)
    (env : Analysis.Env) (fen : jsstring) (turn : Chess.Color)
    (answer : Analysis.Answer) (s : State) :
  getClient (Analysis.base env) = None \/
  (forall key model prompt, Analysis.generateJSON env key model prompt = Rejected) ->
  Analysis.analyzeBoard env fen turn = Fulfilled answer ->
  exists result,
    Analysis.declared answer = Some result /\
    let s' := step s (SuggestionResolved result) in
    bestMove result = None /\
    suggestedMove s' = suggestedMove s /\ suggestionLoading s' = false /\
    game s' = game s /\ whiteTime s' = whiteTime s /\ blackTime s' = blackTime s.
Proof.
  intros Hdown Hres.
  assert (Hd : exists result,
             Analysis.declared answer = Some result /\ bestMove result = None).
  { revert Hres. unfold Analysis.analyzeBoard.
    destruct (getClient (Analysis.base env)) as [key|];
      [|intros [= <-]; eexists; split; reflexivity].
    destruct Hdown as [Hkey|Hrej]; [discriminate|].
    rewrite Hrej. intros [= <-]. eexists; split; reflexivity. }
  destruct Hd as (result & Hd & Hnone).
  exists result. split; [exact Hd|]. intros s'. subst s'.
  split; [exact Hnone|].
  step_cases; unfold bestMoveObj in *; rewrite Hnone in *; try discriminate.
  all: repeat split.
Qed.

(** ** The analysis dialog *)



(** ** Saved settings *)

Lemma getSavedSetting_unusable (parse : jsstring -> option Saved.Json)
    (store : Saved.LocalStorage) (key : string) (d : Saved.Json) :
  store (lit key) = None \/ store (lit key) = Some [] \/
  (exists saved, store (lit key) = Some saved /\ parse saved = None) ->
  Saved.getSavedSetting parse store key d = d.
Proof.
  unfold Saved.getSavedSetting. intros [-> | [-> | (saved & -> & Hp)]]; try reflexivity.
  rewrite Hp. destruct (truthy saved); reflexivity.
Qed.

(** X15: when the entry of every setting is missing, empty, or not JSON,
    the settings loaded are the defaults: ten minutes, the green board,
    sound on, "White" and "Black". *)
Theorem settings_fall_back_to_defaults (parse : jsstring -> option Saved.Json)
    (store : Saved.LocalStorage) :
  (forall key, In key Saved.keys ->
     store key = None \/ store key = Some [] \/
     (exists saved, store key = Some saved /\ parse saved = None)) ->
  Saved.load parse store = Saved.defaults.
Proof.
  intros H. unfold Saved.load, Saved.defaults.
  rewrite !getSavedSetting_unusable; [reflexivity | | | | |];
    apply H; unfold Saved.keys; cbn; tauto.
Qed.

Lemma getSavedSetting_setItem_same (parse : jsstring -> option Saved.Json)
    (store : Saved.LocalStorage) (key : string) (text : jsstring) (v d : Saved.Json) :
  text <> [] -> parse text = Some v ->
  Saved.getSavedSetting parse (Saved.setItem (lit key) text store) key d = v.
Proof.
  intros Hne Hp. unfold Saved.getSavedSetting, Saved.setItem.
  rewrite JS_eqb_refl. apply truthy_nonempty in Hne. rewrite Hne, Hp. reflexivity.
Qed.

Lemma getSavedSetting_setItem_other (parse : jsstring -> option Saved.Json)
    (store : Saved.LocalStorage) (key other : string) (text : jsstring) (d : Saved.Json) :
  JS.eqb (lit key) (lit other) = false ->
  Saved.getSavedSetting parse (Saved.setItem (lit other) text store) key d
  = Saved.getSavedSetting parse store key d.
Proof.
  intros Hne. unfold Saved.getSavedSetting, Saved.setItem. rewrite Hne. reflexivity.
Qed.

(** X16: settings that have been persisted are the settings loaded at the
    next start, whatever the store held before, provided [JSON.parse]
    gives back each value from the non-empty text [JSON.stringify] wrote
    for it. *)
Theorem settings_round_trip (parse : jsstring -> option Saved.Json)
    (stringify : Saved.Json -> jsstring) (p : Saved.Prefs) (store : Saved.LocalStorage) :
  (forall v,
     In v [Saved.p_timeControl p; Saved.p_boardTheme p; Saved.p_soundEnabled p;
           Saved.p_whiteName p; Saved.p_blackName p] ->
     stringify v <> [] /\ parse (stringify v) = Some v) ->
  Saved.load parse (Saved.persist stringify p store) = p.
Proof.
  intros H. destruct p as [tc theme sound wn bn]. cbn in H.
  destruct (H tc ltac:(tauto)) as [H1 H1'].
  destruct (H theme ltac:(tauto)) as [H2 H2'].
  destruct (H sound ltac:(tauto)) as [H3 H3'].
  destruct (H wn ltac:(tauto)) as [H4 H4'].
  destruct (H bn ltac:(tauto)) as [H5 H5'].
  unfold Saved.load, Saved.persist. cbn [Saved.p_timeControl Saved.p_boardTheme
    Saved.p_soundEnabled Saved.p_whiteName Saved.p_blackName].
  f_equal.
  - rewrite !getSavedSetting_setItem_other by reflexivity.
    apply getSavedSetting_setItem_same; assumption.
  - rewrite !getSavedSetting_setItem_other by reflexivity.
    apply getSavedSetting_setItem_same; assumption.
  - rewrite !getSavedSetting_setItem_other by reflexivity.
    apply getSavedSetting_setItem_same; assumption.
  - rewrite !getSavedSetting_setItem_other by reflexivity.
    apply getSavedSetting_setItem_same; assumption.
  - apply getSavedSetting_setItem_same; assumption.
Qed.


(** ** The clock display *)

Lemma step_clock_bounds (E : Chess.Engine) (s : State) (e : Event) :
  0 <= whiteTime s <= 1800 /\ 0 <= blackTime s <= 1800 ->
  0 <= whiteTime (step s e) <= 1800 /\ 0 <= blackTime (step s e) <= 1800.
Proof.
  intros [Hw Hb]. destruct e; step_cases; Z_of_bools;
    try (destruct (timeControl s); cbn [minutes]); lia.
Qed.

(** In every state of the session the clocks are whole seconds from 0 to
    1800, which [formatTime] displays digit by digit. *)
Lemma reachable_clock_bounds (E : Chess.Engine) (s : State) :
  reachable s ->
  0 <= whiteTime s <= 1800 /\ 0 <= blackTime s <= 1800 /\
  1800 <= View.MAX_SAFE_INTEGER.
Proof.
  intros H.
  assert (Hb : 0 <= whiteTime s <= 1800 /\ 0 <= blackTime s <= 1800).
  { induction H as [cfg|s e _ IH].
    - cbn. destruct (saved_timeControl cfg); cbn; lia.
    - apply step_clock_bounds. exact IH. }
  destruct Hb as [Hw Hb]. unfold View.MAX_SAFE_INTEGER. repeat split; lia.
Qed.

Lemma lit_inj (a b : string) : lit a = lit b -> a = b.
Proof.
  unfold lit. intros H.
  rewrite <- (string_of_list_ascii_of_string a), <- (string_of_list_ascii_of_string b).
  f_equal. revert H.
  generalize (list_ascii_of_string a) (list_ascii_of_string b).
  induction l as [|x l IH]; intros [|y l']; cbn; intros H; try discriminate.
  - reflexivity.
  - injection H as Hxy Hl. f_equal; [|apply IH; exact Hl].
    rewrite <- (ascii_N_embedding x), <- (ascii_N_embedding y), Hxy. reflexivity.
Qed.

Lemma to_int_printable (n : Z) : Z.to_int n <> Decimal.Pos Decimal.Nil /\
                                 Z.to_int n <> Decimal.Neg Decimal.Nil.
Proof.
  destruct n as [|p|p]; cbn; split; try discriminate;
    intros [= H]; exact (DecimalPos.Unsigned.to_uint_nonnil p H).
Qed.

(** Different integers are written differently. *)
Lemma numberToString_inj (a b : Z) :
  View.numberToString a = View.numberToString b -> a = b.
Proof.
  unfold View.numberToString. intros H. apply lit_inj in H.
  apply DecimalZ.to_int_inj.
  destruct (to_int_printable a) as [Ha1 Ha2], (to_int_printable b) as [Hb1 Hb2].
  pose proof (NilZero.isi _ Ha1 Ha2) as Ia. pose proof (NilZero.isi _ Hb1 Hb2) as Ib.
  rewrite H in Ia. congruence.
Qed.

(** A number from 0 to 59, padded to two places, is its two digits. *)
Lemma two_digits (n : Z) :
  0 <= n < 60 ->
  View.padStart (View.numberToString n) 2 (lit "0")
  = [Z.to_N (48 + n / 10); Z.to_N (48 + n mod 10)].
Proof.
  intros Hn.
  assert (Hk : exists k, n = Z.of_nat k /\ (k < 60)%nat)
    by (exists (Z.to_nat n); split; lia).
  destruct Hk as (k & -> & Hk).
  do 60 (destruct k as [|k]; [vm_compute; reflexivity|]). lia.
Qed.

(** X17: a whole number of seconds from 0 to [MAX_SAFE_INTEGER] is
    displayed as its whole minutes, a colon, and the remaining seconds on
    exactly two digits. *)
Theorem formatTime_minutes_and_two_digits (seconds : Z) :
  0 <= seconds <= View.MAX_SAFE_INTEGER ->
  View.formatTime seconds =
  View.numberToString (seconds / 60) ++ lit ":" ++
  [Z.to_N (48 + (seconds mod 60) / 10); Z.to_N (48 + (seconds mod 60) mod 10)].
Proof.
  intros H. unfold View.formatTime.
  rewrite Z.rem_mod_nonneg by lia.
  rewrite two_digits by (apply Z.mod_pos_bound; lia). reflexivity.
Qed.

Lemma app_inj_tail3 {A : Type} (x y : list A) (a1 a2 a3 b1 b2 b3 : A) :
  x ++ [a1; a2; a3] = y ++ [b1; b2; b3] -> x = y /\ a2 = b2 /\ a3 = b3.
Proof.
  intros H.
  change (x ++ [a1; a2; a3]) with (x ++ [a1] ++ [a2] ++ [a3]) in H.
  change (y ++ [b1; b2; b3]) with (y ++ [b1] ++ [b2] ++ [b3]) in H.
  rewrite !app_assoc in H.
  apply app_inj_tail in H as [H H3].
  apply app_inj_tail in H as [H H2].
  apply app_inj_tail in H as [H H1].
  auto.
Qed.

(** X18: two different whole numbers of seconds from 0 to
    [MAX_SAFE_INTEGER] are displayed differently. *)
Theorem formatTime_injective (a b : Z) :
  0 <= a <= View.MAX_SAFE_INTEGER -> 0 <= b <= View.MAX_SAFE_INTEGER ->
  a <> b -> View.formatTime a <> View.formatTime b.
Proof.
  intros Ha Hb Hneq H. apply Hneq.
  unfold View.formatTime in H.
  rewrite !Z.rem_mod_nonneg in H by lia.
  rewrite !two_digits in H by (apply Z.mod_pos_bound; lia).
  change (lit ":") with [58%N] in H.
  apply (app_inj_tail3 _ _ 58%N _ _ 58%N) in H as (Hm & H1 & H2).
  apply numberToString_inj in Hm.
  pose proof (Z.mod_pos_bound a 60 ltac:(lia)) as Ba.
  pose proof (Z.mod_pos_bound b 60 ltac:(lia)) as Bb.
  pose proof (Z.mod_pos_bound (a mod 60) 10 ltac:(lia)).
  pose proof (Z.mod_pos_bound (b mod 60) 10 ltac:(lia)).
  assert (0 <= a mod 60 / 10) by (apply Z.div_pos; lia).
  assert (0 <= b mod 60 / 10) by (apply Z.div_pos; lia).
  apply (f_equal Z.of_N) in H1, H2. rewrite !Z2N.id in H1, H2 by lia.
  rewrite (Z.div_mod a 60), (Z.div_mod b 60) by lia.
  rewrite (Z.div_mod (a mod 60) 10), (Z.div_mod (b mod 60) 10) by lia.
  lia.
Qed.

(** ** The board *)

(** X19: in every theme, also one whose name is not known, the two kinds
    of square have different backgrounds, and the labels on a square are
    written in the background colour of the other kind. *)
Theorem labels_contrast_with_their_square (boardTheme : jsstring) (isBlack : bool) :
  let colour := skipn 3 (View.getThemeColors boardTheme isBlack) in
  View.getThemeColors boardTheme isBlack = lit "bg-" ++ colour /\
  View.getThemeTextColors boardTheme (negb isBlack) = lit "text-" ++ colour /\
  View.getThemeColors boardTheme true <> View.getThemeColors boardTheme false.
Proof.
  unfold View.getThemeColors, View.getThemeTextColors.
  destruct (JS.eqb boardTheme (lit "brown")); [destruct isBlack; split_all; vm_compute; (reflexivity || discriminate)|].
  destruct (JS.eqb boardTheme (lit "blue")); [destruct isBlack; split_all; vm_compute; (reflexivity || discriminate)|].
  destruct (JS.eqb boardTheme (lit "slate")); [destruct isBlack; split_all; vm_compute; (reflexivity || discriminate)|].
  destruct (JS.eqb boardTheme (lit "purple")); [destruct isBlack; split_all; vm_compute; (reflexivity || discriminate)|].
  destruct (JS.eqb boardTheme (lit "burgundy")); destruct isBlack; split_all; vm_compute; (reflexivity || discriminate).
Qed.

(** X20: two squares next to each other on a rank or a file never have
    the same colour; a square is dark exactly when the sum of its file
    index (a is 0) and its rank is odd, so a1 is dark. *)
Theorem squares_alternate (a b : Chess.Square) :
  let dark sq := View.isBlackSquare (View.rowOf sq) (View.colOf sq) in
  Z.abs (Chess.fileIndex (Chess.file a) - Chess.fileIndex (Chess.file b)) +
  Z.abs (Chess.rankNumber (Chess.rank a) - Chess.rankNumber (Chess.rank b)) = 1 ->
  dark a = negb (dark b) /\
  dark a = Z.odd (Chess.fileIndex (Chess.file a) + Chess.rankNumber (Chess.rank a)).
Proof.
  intros dark Hadj.
  assert (Hdark : forall sq,
            dark sq = Z.odd (Chess.fileIndex (Chess.file sq) + Chess.rankNumber (Chess.rank sq))).
  { intros [f r]. destruct f, r; reflexivity. }
  split; [|apply Hdark].
  rewrite !Hdark.
  set (x := Chess.fileIndex (Chess.file a) + Chess.rankNumber (Chess.rank a)).
  set (y := Chess.fileIndex (Chess.file b) + Chess.rankNumber (Chess.rank b)).
  assert (Hxy : x = y + 1 \/ y = x + 1) by (unfold x, y; lia).
  destruct Hxy as [-> | ->].
  - rewrite Z.add_1_r, Z.odd_succ, <- Z.negb_odd. reflexivity.
  - rewrite Z.add_1_r, Z.odd_succ, <- Z.negb_odd, negb_involutive. reflexivity.
Qed.


Lemma jsstring_eq_dec (a b : jsstring) : {a = b} + {a <> b}.
Proof. apply list_eq_dec, N.eq_dec. Defined.

(** X21: under either orientation the grid is the board: it has 64 cells,
    no square twice, every square of the engine is a cell and every cell
    is a square; and the grid with Black at the bottom is the grid with
    White at the bottom read backwards. *)
Theorem grid_is_the_board (orientation : Chess.Color) :
  List.length (View.gridSquares orientation) = 64%nat /\
  NoDup (View.gridSquares orientation) /\
  (forall sq : Chess.Square, In (Chess.squareName sq) (View.gridSquares orientation)) /\
  (forall cell, In cell (View.gridSquares orientation) ->
                exists sq, cell = Chess.squareName sq) /\
  View.gridSquares Chess.Black = rev (View.gridSquares Chess.White).
Proof.
  split_all.
  - destruct orientation; reflexivity.
  - assert (H : nodup jsstring_eq_dec (View.gridSquares orientation)
                = View.gridSquares orientation)
      by (destruct orientation; vm_compute; reflexivity).
    rewrite <- H. apply NoDup_nodup.
  - intros sq.
    assert (H : existsb (JS.eqb (Chess.squareName sq)) (View.gridSquares orientation) = true)
      by (destruct sq as [f r]; destruct orientation, f, r; vm_compute; reflexivity).
    apply existsb_exists in H as (cell & Hin & Heq).
    apply JS_eqb_eq in Heq. subst cell. exact Hin.
  - assert (H : forallb (fun cell =>
                           existsb (fun sq => JS.eqb cell (Chess.squareName sq))
                                   ToyChess.squares)
                        (View.gridSquares orientation) = true)
      by (destruct orientation; vm_compute; reflexivity).
    intros cell Hin. rewrite forallb_forall in H. specialize (H cell Hin).
    apply existsb_exists in H as (sq & _ & Heq). apply JS_eqb_eq in Heq.
    exists sq. exact Heq.
  - vm_compute. reflexivity.
Qed.

(** ** The animation of the arriving piece *)

Lemma rowIndex_square (orientation : Chess.Color) (sq : Chess.Square) :
  rowIndex orientation (Chess.squareName sq) =
  match orientation with
  | Chess.White => 8 - Chess.rankNumber (Chess.rank sq)
  | Chess.Black => Chess.rankNumber (Chess.rank sq) - 1
  end.
Proof. destruct sq as [f r]; destruct orientation, f, r; reflexivity. Qed.

Lemma colIndex_square (orientation : Chess.Color) (sq : Chess.Square) :
  colIndex orientation (Chess.squareName sq) =
  match orientation with
  | Chess.White => Chess.fileIndex (Chess.file sq)
  | Chess.Black => 7 - Chess.fileIndex (Chess.file sq)
  end.
Proof. destruct sq as [f r]; destruct orientation, f, r; reflexivity. Qed.

Lemma rankNumber_range (r : Chess.Rank) : 1 <= Chess.rankNumber r <= 8.
Proof. destruct r; cbn; lia. Qed.

Lemma fileIndex_range (f : Chess.File) : 0 <= Chess.fileIndex f <= 7.
Proof. destruct f; cbn; lia. Qed.

(** Between two squares of the engine both rows are found. *)
Lemma offsetOf_squares (orientation : Chess.Color) (from to : Chess.Square) :
  offsetOf orientation (Chess.squareName from) (Chess.squareName to)
  = Some {| x := colIndex orientation (Chess.squareName from)
                 - colIndex orientation (Chess.squareName to);
            y := rowIndex orientation (Chess.squareName from)
                 - rowIndex orientation (Chess.squareName to) |}.
Proof.
  pose proof (rankNumber_range (Chess.rank from)).
  pose proof (rankNumber_range (Chess.rank to)).
  rewrite offsetOf_rows.
  replace (rowIndex orientation (Chess.squareName from) =? -1) with false
    by (symmetry; apply Z.eqb_neq; rewrite rowIndex_square; destruct orientation; lia).
  replace (rowIndex orientation (Chess.squareName to) =? -1) with false
    by (symmetry; apply Z.eqb_neq; rewrite rowIndex_square; destruct orientation; lia).
  reflexivity.
Qed.



(** X22: between two squares of the engine the offset always exists.  With
    White at the bottom it is the difference of the files, from minus to,
    and of the ranks, to minus from; with Black at the bottom it is the
    same vector negated. *)
Theorem offset_between_squares (from to : Chess.Square) :
  let dx := Chess.fileIndex (Chess.file from) - Chess.fileIndex (Chess.file to) in
  let dy := Chess.rankNumber (Chess.rank to) - Chess.rankNumber (Chess.rank from) in
  offsetOf Chess.White (Chess.squareName from) (Chess.squareName to)
    = Some {| x := dx; y := dy |} /\
  offsetOf Chess.Black (Chess.squareName from) (Chess.squareName to)
    = Some {| x := - dx; y := - dy |}.
Proof.
  intros dx dy. subst dx dy.
  split; rewrite offsetOf_squares, !rowIndex_square, !colIndex_square;
    do 2 f_equal; lia.
Qed.

(** X23: in every state of the session that has a last move, the cell the
    piece arrived on gets an animation offset under either orientation,
    within seven cells each way, and every other cell gets none: the
    no-offset guard of the code is never taken for a move the engine
    recorded. *)
Theorem arriving_piece_is_animated (E : Chess.Engine) (L : Chess.Laws E)
    (s : State) (lm : LastMove) (orientation : Chess.Color) :
  reachable s ->
  lastMove s = Some lm ->
  (exists off,
     animationOffset orientation (lastMove s) (lm_to lm) = Some off /\
     -7 <= x off <= 7 /\ -7 <= y off <= 7) /\
  (forall cell, cell <> lm_to lm -> animationOffset orientation (lastMove s) cell = None).
Proof.
  intros Hreach Hlast.
  destruct (reachable_mirrorsInSync s Hreach) as (_ & _ & _ & _ & Hsync).
  rewrite Hlast in Hsync. unfold lastMoveOf in Hsync.
  destruct (lastOf (Chess.history (game s))) as [last|]; [|discriminate].
  injection Hsync as ->. cbn [lm_from lm_to] in *.
  rewrite Hlast. unfold animationOffset. cbn [lm_from lm_to]. split.
  - rewrite JS_eqb_refl, offsetOf_squares, !rowIndex_square, !colIndex_square.
    pose proof (rankNumber_range (Chess.rank (Chess.from last))).
    pose proof (rankNumber_range (Chess.rank (Chess.to last))).
    pose proof (fileIndex_range (Chess.file (Chess.from last))).
    pose proof (fileIndex_range (Chess.file (Chess.to last))).
    eexists. split; [reflexivity|]. cbn [x y]. destruct orientation; lia.
  - intros cell Hcell.
    destruct (JS.eqb (Chess.squareName (Chess.to last)) cell) eqn:Heq; [|reflexivity].
    apply JS_eqb_eq in Heq. congruence.
Qed.

(** ** The player panels *)

Section PanelProperties.

Context {E : Chess.Engine}.

(** X24: in every reachable state the two panels are those of the two
    sides, the panel at the bottom being the side the board is oriented
    to, and each timer shows the clock of its side; while the game is
    active exactly the timer of the side to move in the engine is lit, and
    once the game is over neither is; a timer pulses red only when it is
    lit and has less than a minute left; and only the side to move is
    shown in check, exactly when the engine says so. *)
Theorem lit_timer_is_the_running_clock {L : Chess.Laws E} (s : State) :
  reachable s ->
  let mover := Chess.turn (game s) in
  let panel c := Panels.getPlayerStatus s c in
  let timer c := Panels.timerOf s (panel c) in
  Panels.playerStatus s = panel (orientation s) /\
  Panels.opponentStatus s = panel (opponent (orientation s)) /\
  (forall c, Panels.shownTime (timer c) = View.formatTime (remaining c s)) /\
  (forall c, Panels.lit_up (timer c) = negb (gameOver s) && Chess.Color_eqb mover c) /\
  (forall c, Panels.alarm (timer c) = Panels.lit_up (timer c) && (remaining c s <? 60)) /\
  (forall c, Panels.isPlayerInCheck (panel c)
             = Chess.inCheck (game s) && Chess.Color_eqb mover c).
Proof.
  intros Hreach mover panel timer.
  pose proof (reachable_mirrorsInSync s Hreach) as [_ [Hturn [Hcheck _]]].
  subst mover panel timer.
  unfold Panels.playerStatus, Panels.opponentStatus, Panels.playerColor,
    Panels.opponentColor, Panels.timerOf, Panels.TimerDisplay, Panels.getPlayerStatus,
    opponent, remaining.
  cbn [Panels.shownTime Panels.lit_up Panels.alarm Panels.isPlayerInCheck
       Panels.isTurn Panels.timeLeft].
  rewrite <- Hturn, <- Hcheck.
  split_all.
  - destruct (orientation s); reflexivity.
  - destruct (orientation s); reflexivity.
  - intros c. destruct c; reflexivity.
  - intros c. destruct (Chess.Color_eqb (turn s) c), (gameOver s); reflexivity.
  - intros c.
    destruct c, (Chess.Color_eqb (turn s) _), (gameOver s), (_ <? 60); reflexivity.
  - intros c. destruct (isCheck s), (Chess.Color_eqb (turn s) c); reflexivity.
Qed.

End PanelProperties.

(** X25: with White at the bottom the row numbers are written on the
    cells of the a-file, 8 at the top to 1 at the bottom, and the column
    letters on the cells of the first rank, a to h; with Black at the
    bottom the letters are written on the cells of the eighth rank, h to
    a, and no row number is written on any cell. *)
Theorem labels_on_the_edges :
  Panels.rankLabels Chess.White
    = map (fun row => (View.cellName 97 row, row)) boardRows /\
  Panels.fileLabels Chess.White
    = map (fun col => (View.cellName col 1, col)) boardCols /\
  Panels.rankLabels Chess.Black = [] /\
  Panels.fileLabels Chess.Black
    = map (fun col => (View.cellName col 8, col)) (rev boardCols).
Proof. split_all; vm_compute; reflexivity. Qed.

Lemma lit_timer_is_the_running_clock_witness :
  reachable Sample.twoKnights /\
  Panels.lit_up (Panels.playerTimer Sample.twoKnights) = true /\
  Panels.lit_up (Panels.opponentTimer Sample.twoKnights) = false.
Proof.
  destruct (lit_timer_is_the_running_clock (L := ToyChess_laws) Sample.twoKnights
              reachable_twoKnights) as [Hp [Ho [_ [Hlit _]]]].
  split; [exact reachable_twoKnights|].
  unfold Panels.playerTimer, Panels.opponentTimer. rewrite Hp, Ho, !Hlit.
  split; vm_compute; reflexivity.
Defined.

(** ** The properties on sample sessions *)

(** [ToyChess] takes back what it plays. *)
Lemma ToyChess_takeback_laws : TakebackLaws ToyChess.engine.
Proof.
  constructor; intros g a g' m H; cbn in H; unfold ToyChess.play in H;
    destruct (find _ _) as [[[src p] dst]|]; try discriminate;
    injection H as <- <-.
  - cbn. unfold ToyChess.takeBack. cbn [ToyChess.past ToyChess.side ToyChess.board].
    rewrite rev_app_distr. cbn [rev app]. rewrite rev_involutive.
    destruct g as [b c h]. cbn. destruct c; reflexivity.
  - cbn. rewrite map_app. reflexivity.
Qed.

(** After 1. Nf3 Nc6 the state variables agree with the engine. *)
Lemma mirrors_follow_the_engine_witness :
  reachable Sample.twoKnights /\
  fen Sample.twoKnights = Chess.fen (game Sample.twoKnights) /\
  historyCount Sample.twoKnights = List.length (Chess.history (game Sample.twoKnights)).
Proof.
  destruct (mirrors_follow_the_engine (L := ToyChess_laws) Sample.twoKnights
              reachable_twoKnights) as (Hfen & _ & _ & Hcount & _).
  exact (conj reachable_twoKnights (conj Hfen Hcount)).
Defined.

Lemma active_game_is_in_play_witness :
  reachable Sample.twoKnights /\ gameOver Sample.twoKnights = false /\
  gameStatus Sample.twoKnights = [] /\
  Chess.isGameOver (game Sample.twoKnights) = false /\
  0 < whiteTime Sample.twoKnights /\ 0 < blackTime Sample.twoKnights.
Proof.
  assert (Hover : gameOver Sample.twoKnights = false) by (vm_compute; reflexivity).
  split; [exact reachable_twoKnights|]. split; [exact Hover|].
  exact (proj1 (active_game_is_in_play (L := ToyChess_laws) Sample.twoKnights
                  reachable_twoKnights) Hover).
Defined.

(** With the pawn on e2 selected, e3 and e4 are highlighted. *)
Lemma highlighted_destinations_are_legal_witness :
  let s := step Sample.opening (SquareClick Sample.e2 0) in
  reachable s /\ selectedSquare s = Some Sample.e2 /\
  possibleMoves s = destinationsOf (game s) (selectedSquare s).
Proof.
  intros s.
  assert (Hreach : reachable s) by (apply reachable_step, reachable_opening).
  assert (Hsel : selectedSquare s = Some Sample.e2) by (vm_compute; reflexivity).
  split; [exact Hreach|]. split; [exact Hsel|].
  exact (highlighted_destinations_are_legal s Hreach).
Defined.

(** After 1. Nf3 Nc6 a hint recommending Nd4 arrives. *)
Lemma recommendation_is_playable_witness :
  let s := run Sample.twoKnights [HintClick; SuggestionResolved Sample.knightToD4] in
  reachable s /\
  suggestedMove s = Some {| sg_from := lit "f3"; sg_to := lit "d4" |} /\
  recommendationLegal s.
Proof.
  intros s.
  assert (Hreach : reachable s) by (apply reachable_run, reachable_twoKnights).
  assert (Hsg : suggestedMove s = Some {| sg_from := lit "f3"; sg_to := lit "d4" |})
    by (vm_compute; reflexivity).
  split; [exact Hreach|]. split; [exact Hsg|].
  exact (recommendation_is_playable s Hreach).
Defined.

Lemma clocks_change_only_by_tick_and_reset_witness :
  touchesClocks HintClick = false /\
  whiteTime (step Sample.opening HintClick) = whiteTime Sample.opening /\
  blackTime (step Sample.opening HintClick) = blackTime Sample.opening.
Proof.
  split; [reflexivity|].
  exact (clocks_change_only_by_tick_and_reset Sample.opening HintClick eq_refl).
Defined.

(** White's minute: sixty ticks from the first render. *)
Lemma clock_runs_out_after_its_seconds_witness :
  let s := Sample.opening in
  let s' := run s (repeat Tick 60) in
  reachable s /\ gameOver s = false /\
  remaining (Chess.turn (game s)) s <= 60 /\
  remaining (Chess.turn (game s)) s' = 0 /\
  outcome s' = Some (displayName (opponent (Chess.turn (game s))) s ++ lit " wins on time!").
Proof.
  intros s s'.
  assert (Hover : gameOver s = false) by (vm_compute; reflexivity).
  assert (Hle : remaining (Chess.turn (game s)) s <= Z.of_nat 60)
    by (vm_compute; discriminate).
  split; [exact reachable_opening|]. split; [exact Hover|]. split; [exact Hle|].
  exact (proj2 (proj2 (clock_runs_out_after_its_seconds (L := ToyChess_laws) s 60
                         reachable_opening Hover)) Hle).
Defined.

(** Two resets after White has lost on time. *)
Lemma second_reset_restores_initial_state_witness :
  freshOf (run Sample.flagged [ResetClick; ResetClick]) =
  freshOf (initialState {| saved_timeControl := timeControl Sample.flagged;
                           saved_whiteName := whiteName Sample.flagged;
                           saved_blackName := blackName Sample.flagged |}).
Proof.
  exact (second_reset_restores_initial_state (L := ToyChess_laws) Sample.flagged).
Defined.

(** 1. e4 played by clicks, then taken back. *)
Lemma takeback_undoes_the_move_witness :
  let s := step Sample.opening (SquareClick Sample.e2 0) in
  let e4 := {| Chess.file := Chess.Fe; Chess.rank := Chess.R4 |} in
  let s' := run s [SquareClick e4 0; TakebackClick] in
  reachable s /\ gameOver s = false /\ selectedSquare s = Some Sample.e2 /\
  game s' = game s /\ fen s' = fen s /\ historyCount s' = historyCount s /\
  selectedSquare s' = None.
Proof.
  intros s e4 s'.
  assert (Hreach : reachable s) by (apply reachable_step, reachable_opening).
  assert (Hover : gameOver s = false) by (vm_compute; reflexivity).
  assert (Hsel : selectedSquare s = Some Sample.e2) by (vm_compute; reflexivity).
  assert (Hneq : Sample.e2 <> e4) by discriminate.
  assert (Hlive : match Chess.move (game s)
                          {| Chess.a_from := Sample.e2; Chess.a_to := e4;
                             Chess.a_promotion := Chess.Queen |} with
                  | Some (g, _) => Chess.isGameOver g = false
                  | None => False
                  end)
    by (vm_compute; reflexivity).
  destruct (Chess.move (game s)
              {| Chess.a_from := Sample.e2; Chess.a_to := e4;
                 Chess.a_promotion := Chess.Queen |}) as [[g' m]|] eqn:Hmove;
    [|destruct Hlive].
  destruct (takeback_undoes_the_move (L := ToyChess_laws) (T := ToyChess_takeback_laws)
              s Sample.e2 e4 0 g' m Hreach Hover Hsel Hneq Hmove Hlive)
    as [Hgame [Hfen [_ [_ [Hcount [_ [_ [Hnone _]]]]]]]].
  exact (conj Hreach (conj Hover (conj Hsel (conj Hgame (conj Hfen (conj Hcount Hnone)))))).
Defined.

(** The service answers with an object that recommends Nd4. *)
Lemma best_move_comes_from_the_service_witness :
  let fen := lit "8/8/8/8/8/8/8/8 w - - 0 1" in
  let answer := {| Analysis.a_evaluation := Analysis.VString (lit "Equal");
                   Analysis.a_bestMove := Some (Analysis.VString (lit "Nd4"));
                   Analysis.a_explanation :=
                     Analysis.VString (lit "No explanation provided.") |} in
  Analysis.analyzeBoard SampleAnalysis.recommending fen Chess.White = Fulfilled answer /\
  exists key text members,
    getClient (Analysis.base SampleAnalysis.recommending) = Some key /\
    Analysis.generateJSON SampleAnalysis.recommending key (lit "gemini-3-flash-preview")
      (Analysis.analysisPrompt fen (lit "White")) = Fulfilled (Some text) /\
    text <> [] /\
    Analysis.JSON_parse SampleAnalysis.recommending text
      = Some (Analysis.VObject members) /\
    Analysis.property (Analysis.VObject members) "bestMove"
      = Some (Analysis.VString (lit "Nd4")).
Proof.
  intros fen answer.
  assert (H : Analysis.analyzeBoard SampleAnalysis.recommending fen Chess.White
              = Fulfilled answer) by reflexivity.
  split; [exact H|].
  exact (best_move_comes_from_the_service SampleAnalysis.recommending fen Chess.White
           answer (Analysis.VString (lit "Nd4")) H eq_refl).
Defined.

(** Without a key, the hint that was asked for after 1. Nf3 Nc6 leaves no
    recommendation. *)
Lemma hint_without_service_witness :
  let fen := lit "8/8/8/8/8/8/8/8 w - - 0 1" in
  let answer := {| Analysis.a_evaluation := Analysis.VString (lit "Error");
                   Analysis.a_bestMove := None;
                   Analysis.a_explanation :=
                     Analysis.VString (lit "API Key missing. Cannot analyze.") |} in
  let s := step Sample.twoKnights HintClick in
  getClient (Analysis.base SampleAnalysis.noKey) = None /\
  Analysis.analyzeBoard SampleAnalysis.noKey fen Chess.White = Fulfilled answer /\
  exists result,
    Analysis.declared answer = Some result /\
    suggestedMove (step s (SuggestionResolved result)) = suggestedMove s /\
    suggestionLoading (step s (SuggestionResolved result)) = false.
Proof.
  intros fen answer s.
  assert (H : Analysis.analyzeBoard SampleAnalysis.noKey fen Chess.White = Fulfilled answer)
    by reflexivity.
  destruct (hint_without_service ToyChess.engine SampleAnalysis.noKey fen Chess.White
              answer s (or_introl eq_refl) H) as (result & Hd & _ & Hsg & Hload & _).
  exact (conj eq_refl (conj H (ex_intro _ result (conj Hd (conj Hsg Hload))))).
Defined.


Lemma corrupt_store_unusable (key : jsstring) :
  In key Saved.keys ->
  SampleJSON.corrupt key = None \/ SampleJSON.corrupt key = Some [] \/
  (exists saved, SampleJSON.corrupt key = Some saved /\ SampleJSON.parse saved = None).
Proof.
  intros Hin.
  destruct Hin as [<-|[<-|[<-|[<-|[<-|[]]]]]];
    first [ left; vm_compute; reflexivity
          | right; right; exists (lit "{oops"); split; vm_compute; reflexivity ].
Defined.

(** A store whose only entry is not JSON. *)
Lemma settings_fall_back_to_defaults_witness :
  (forall key, In key Saved.keys ->
     SampleJSON.corrupt key = None \/ SampleJSON.corrupt key = Some [] \/
     (exists saved, SampleJSON.corrupt key = Some saved /\ SampleJSON.parse saved = None)) /\
  Saved.load SampleJSON.parse SampleJSON.corrupt = Saved.defaults.
Proof.
  split; [exact corrupt_store_unusable|].
  exact (settings_fall_back_to_defaults SampleJSON.parse SampleJSON.corrupt
           corrupt_store_unusable).
Defined.

Lemma chosen_round_trips (v : Saved.Json) :
  In v [Saved.p_timeControl SampleJSON.chosen; Saved.p_boardTheme SampleJSON.chosen;
        Saved.p_soundEnabled SampleJSON.chosen; Saved.p_whiteName SampleJSON.chosen;
        Saved.p_blackName SampleJSON.chosen] ->
  SampleJSON.stringify v <> [] /\ SampleJSON.parse (SampleJSON.stringify v) = Some v.
Proof.
  intros Hin.
  destruct Hin as [<-|[<-|[<-|[<-|[<-|[]]]]]];
    (split; [vm_compute; discriminate | vm_compute; reflexivity]).
Defined.

(** Three minutes, the blue board, no sound and two names, saved over a
    store with a corrupt entry and loaded again. *)
Lemma settings_round_trip_witness :
  Saved.load SampleJSON.parse
    (Saved.persist SampleJSON.stringify SampleJSON.chosen SampleJSON.corrupt)
  = SampleJSON.chosen.
Proof.
  exact (settings_round_trip SampleJSON.parse SampleJSON.stringify SampleJSON.chosen
           SampleJSON.corrupt chosen_round_trips).
Defined.

Lemma formatTime_minutes_and_two_digits_witness :
  0 <= 65 <= View.MAX_SAFE_INTEGER /\ View.formatTime 65 = lit "1:05".
Proof.
  assert (H : 0 <= 65 <= View.MAX_SAFE_INTEGER) by (unfold View.MAX_SAFE_INTEGER; lia).
  split; [exact H|].
  rewrite (formatTime_minutes_and_two_digits 65 H). vm_compute. reflexivity.
Defined.

(** 0:59 and 1:00. *)
Lemma formatTime_injective_witness :
  0 <= 59 <= View.MAX_SAFE_INTEGER /\ 0 <= 60 <= View.MAX_SAFE_INTEGER /\ 59 <> 60 /\
  View.formatTime 59 <> View.formatTime 60.
Proof.
  assert (Ha : 0 <= 59 <= View.MAX_SAFE_INTEGER) by (unfold View.MAX_SAFE_INTEGER; lia).
  assert (Hb : 0 <= 60 <= View.MAX_SAFE_INTEGER) by (unfold View.MAX_SAFE_INTEGER; lia).
  assert (Hneq : 59 <> 60) by lia.
  exact (conj Ha (conj Hb (conj Hneq (formatTime_injective 59 60 Ha Hb Hneq)))).
Defined.

(** a1 is dark and b1 is light. *)
Lemma squares_alternate_witness :
  let a1 := {| Chess.file := Chess.Fa; Chess.rank := Chess.R1 |} in
  let b1 := {| Chess.file := Chess.Fb; Chess.rank := Chess.R1 |} in
  View.isBlackSquare (View.rowOf a1) (View.colOf a1)
  = negb (View.isBlackSquare (View.rowOf b1) (View.colOf b1)) /\
  View.isBlackSquare (View.rowOf a1) (View.colOf a1) = true.
Proof.
  intros a1 b1.
  destruct (squares_alternate a1 b1 eq_refl) as [Halt Hdark].
  exact (conj Halt Hdark).
Defined.


(** After 1. e4 the pawn on e4 starts two rows lower, and no other cell
    is animated. *)
Lemma arriving_piece_is_animated_witness :
  let e4 := {| Chess.file := Chess.Fe; Chess.rank := Chess.R4 |} in
  let s := run Sample.opening [SquareClick Sample.e2 0; SquareClick e4 0] in
  let lm := {| lm_from := lit "e2"; lm_to := lit "e4"; lm_flags := Some (lit "b") |} in
  reachable s /\ lastMove s = Some lm /\
  lit "e2" <> lm_to lm /\
  animationOffset Chess.White (lastMove s) (lit "e2") = None.
Proof.
  intros e4 s lm.
  assert (Hreach : reachable s) by (apply reachable_run, reachable_opening).
  assert (Hlast : lastMove s = Some lm) by (vm_compute; reflexivity).
  assert (Hneq : lit "e2" <> lm_to lm) by (vm_compute; discriminate).
  exact (conj Hreach (conj Hlast (conj Hneq
           (proj2 (arriving_piece_is_animated ToyChess.engine ToyChess_laws s lm
                     Chess.White Hreach Hlast) (lit "e2") Hneq)))).
Defined.
